(** * Hardware-acceleration negotiation of the FFmpeg capture backend

    A shallow embedding of [src/ffmpeg_decode/cap_ffmpeg_hw.hpp]:
    the configuration resolver, the candidate iterator, the device context
    builder with its reference-counted contexts, the frame pool builder, the
    codec selector and the format-selection callback, followed by the
    properties proved about them. *)

From Stdlib Require Import ZArith Bool Ascii String List Lia DecimalString DecimalPos DecimalZ.
From stdpp Require Import base option gmap.
Import ListNotations.

Local Open Scope string_scope.
Local Open Scope Z_scope.

(** ** Enumerations of the headers *)

Inductive VideoAccelerationType :=
| VIDEO_ACCELERATION_NONE
| VIDEO_ACCELERATION_ANY
| VIDEO_ACCELERATION_D3D11
| VIDEO_ACCELERATION_VAAPI
| VIDEO_ACCELERATION_MFX
| VIDEO_ACCELERATION_other (v : Z).

(** [VIDEO_ACCELERATION_other] stands for an int outside the five named
    values, such as the [1 << 11] that [hw_type_to_va_type] casts for CUDA. *)

(** [enum AVHWDeviceType] of libavutil/hwcontext.h, in declaration order. *)
Inductive AVHWDeviceType :=
| AV_HWDEVICE_TYPE_NONE
| AV_HWDEVICE_TYPE_VDPAU
| AV_HWDEVICE_TYPE_CUDA
| AV_HWDEVICE_TYPE_VAAPI
| AV_HWDEVICE_TYPE_DXVA2
| AV_HWDEVICE_TYPE_QSV
| AV_HWDEVICE_TYPE_VIDEOTOOLBOX
| AV_HWDEVICE_TYPE_D3D11VA
| AV_HWDEVICE_TYPE_DRM
| AV_HWDEVICE_TYPE_OPENCL
| AV_HWDEVICE_TYPE_MEDIACODEC
| AV_HWDEVICE_TYPE_VULKAN.

(** The pixel formats the code names, and every other one by its number. *)
Inductive AVPixelFormat :=
| AV_PIX_FMT_NONE
| AV_PIX_FMT_NV12
| AV_PIX_FMT_VAAPI_VLD
| AV_PIX_FMT_CUDA
| AV_PIX_FMT_other (n : N).

(** The two arms of [#ifdef _WIN32]. *)
Inductive Target := Win32 | NotWin32.

#[global] Instance VideoAccelerationType_eq_dec : EqDecision VideoAccelerationType.
Proof. solve_decision. Defined.
#[global] Instance AVHWDeviceType_eq_dec : EqDecision AVHWDeviceType.
Proof. solve_decision. Defined.
#[global] Instance AVPixelFormat_eq_dec : EqDecision AVPixelFormat.
Proof. solve_decision. Defined.

Definition HW_DEFAULT_POOL_SIZE : Z := 32.
Definition HW_DEFAULT_SW_FORMAT : AVPixelFormat := AV_PIX_FMT_NV12.

(** ** std::string and std::istringstream *)

Definition comma : ascii := ","%char.
Definition dot : ascii := "."%char.

Definition empty (s : string) : bool :=
  match s with EmptyString => true | String _ _ => false end.

(** Characters up to the first [delim]; the second component is what follows
    the delimiter, or [None] when the end of the input came first. *)
Fixpoint extract_until (delim : ascii) (buf : string) : string * option string :=
  match buf with
  | EmptyString => (EmptyString, None)
  | String c rest =>
      if Ascii.eqb c delim then (EmptyString, Some rest)
      else let '(tok, r) := extract_until delim rest in (String c tok, r)
  end.

(** [std::string::find(char)]: position of the first occurrence. *)
Fixpoint find_char (c : ascii) (s : string) : option nat :=
  match s with
  | EmptyString => None
  | String a rest =>
      if Ascii.eqb a c then Some O else option_map S (find_char c rest)
  end.

(** [std::string::find(const std::string&)]: position of the first
    occurrence of [pat], [None] for [npos]. *)
Fixpoint find (s pat : string) : option nat :=
  if String.prefix pat s then Some O
  else match s with
       | EmptyString => None
       | String _ rest => option_map S (find rest pat)
       end.

Record istringstream := mk_stream {
  rdbuf : string;
  eofbit : bool;
  failbit : bool
}.

Definition good (s : istringstream) : bool :=
  negb (eofbit s) && negb (failbit s).

(** A default-constructed stream, and [std::istringstream(str)]. *)
Definition istringstream_default : istringstream := mk_stream "" false false.
Definition istringstream_of (str : string) : istringstream := mk_stream str false false.

(** [std::getline(strm, str, delim)]. A stream that is not good only gets
    failbit; otherwise [str] is erased, characters are taken up to the
    delimiter (which is dropped) or to the end of the input (eofbit), and
    failbit is set when nothing at all was taken. *)
Definition getline (strm : istringstream) (str : string) (delim : ascii)
  : istringstream * string :=
  if good strm then
    match extract_until delim (rdbuf strm) with
    | (tok, Some rest) => (mk_stream rest false false, tok)
    | (tok, None) => (mk_stream "" true (empty tok), tok)
    end
  else (mk_stream (rdbuf strm) (eofbit strm) true, str).

Definition isspace (c : ascii) : bool :=
  let n := N_of_ascii c in
  (N.eqb n 32 || (N.leb 9 n && N.leb n 13))%bool.

Fixpoint skip_ws (buf : string) : string :=
  match buf with
  | EmptyString => EmptyString
  | String c rest => if isspace c then skip_ws rest else buf
  end.

Fixpoint take_word (buf : string) : string * string :=
  match buf with
  | EmptyString => (EmptyString, EmptyString)
  | String c rest =>
      if isspace c then (EmptyString, buf)
      else let '(w, r) := take_word rest in (String c w, r)
  end.

(** [strm >> str] for a string: leading white space is skipped; reaching the
    end of the input while skipping sets eofbit and failbit and leaves
    [str] alone. *)
Definition extract_word (strm : istringstream) (str : string)
  : istringstream * string :=
  if good strm then
    match skip_ws (rdbuf strm) with
    | EmptyString => (mk_stream "" true true, str)
    | buf => let '(w, r) := take_word buf in (mk_stream r (empty r) false, w)
    end
  else (mk_stream (rdbuf strm) (eofbit strm) true, str).

(** [snprintf("%d")]. *)
Definition decimal (z : Z) : string := NilZero.string_of_int (Z.to_int z).

(** ** AVDictionary *)

(** The entries in insertion order; a [NULL] dictionary is [None]. *)
Definition AVDictionary := list (string * string).

Definition av_toupper (c : ascii) : ascii :=
  let n := N_of_ascii c in
  if (N.leb 97 n && N.leb n 122)%bool then ascii_of_N (N.lxor n 32) else c.

Fixpoint key_matches (s key : string) : bool :=
  match s, key with
  | EmptyString, EmptyString => true
  | String a s', String b key' =>
      Ascii.eqb (av_toupper a) (av_toupper b) && key_matches s' key'
  | _, _ => false
  end.

(** [av_dict_get(dict, key, NULL, 0)]: the value of the first entry whose
    key equals [key] up to the case of letters. *)
Fixpoint av_dict_get (dict : AVDictionary) (key : string) : option string :=
  match dict with
  | [] => None
  | (k, v) :: rest => if key_matches k key then Some v else av_dict_get rest key
  end.

(** ** Configuration resolver *)

Definition getVideoAccelerationName (va_type : VideoAccelerationType) : string :=
  match va_type with
  | VIDEO_ACCELERATION_NONE => "none"
  | VIDEO_ACCELERATION_ANY => "any"
  | VIDEO_ACCELERATION_D3D11 => "d3d11"
  | VIDEO_ACCELERATION_VAAPI => "vaapi"
  | VIDEO_ACCELERATION_MFX => "mfx"
  | VIDEO_ACCELERATION_other _ => "unknown"
  end.

(** The lookup shared by the four getters: the entry's value when the
    dictionary is there and has the key. *)
Definition dict_value (dict : option AVDictionary) (key_name : string) : option string :=
  match dict with
  | Some d => av_dict_get d key_name
  | None => None
  end.

Definition decoder_default (target : Target) (va_type : VideoAccelerationType) : string :=
  match target with
  | Win32 =>
      match va_type with
      | VIDEO_ACCELERATION_NONE => ""
      | VIDEO_ACCELERATION_ANY => "d3d11va"
      | VIDEO_ACCELERATION_D3D11 => "d3d11va"
      | VIDEO_ACCELERATION_VAAPI => ""
      | VIDEO_ACCELERATION_MFX => ""
      | VIDEO_ACCELERATION_other _ => ""
      end
  | NotWin32 =>
      match va_type with
      | VIDEO_ACCELERATION_NONE => ""
      | VIDEO_ACCELERATION_ANY => "vaapi.iHD"
      | VIDEO_ACCELERATION_D3D11 => ""
      | VIDEO_ACCELERATION_VAAPI => "vaapi.iHD"
      | VIDEO_ACCELERATION_MFX => "qsv.iHD"
      | VIDEO_ACCELERATION_other _ => ""
      end
  end.

Definition encoder_default (target : Target) (va_type : VideoAccelerationType) : string :=
  match target with
  | Win32 =>
      match va_type with
      | VIDEO_ACCELERATION_NONE => ""
      | VIDEO_ACCELERATION_ANY => "qsv"
      | VIDEO_ACCELERATION_D3D11 => ""
      | VIDEO_ACCELERATION_VAAPI => ""
      | VIDEO_ACCELERATION_MFX => "qsv"
      | VIDEO_ACCELERATION_other _ => ""
      end
  | NotWin32 =>
      match va_type with
      | VIDEO_ACCELERATION_NONE => ""
      | VIDEO_ACCELERATION_ANY => "qsv.iHD,vaapi.iHD"
      | VIDEO_ACCELERATION_D3D11 => ""
      | VIDEO_ACCELERATION_VAAPI => "vaapi.iHD"
      | VIDEO_ACCELERATION_MFX => "qsv.iHD"
      | VIDEO_ACCELERATION_other _ => "unknown"
      end
  end.

Definition getDecoderConfiguration (target : Target)
    (va_type : VideoAccelerationType) (dict : option AVDictionary) : string :=
  let va_name := getVideoAccelerationName va_type in
  let key_name := "hw_decoders_" ++ va_name in
  match dict_value dict key_name with
  | Some hw_acceleration => hw_acceleration
  | None => decoder_default target va_type
  end.

Definition getEncoderConfiguration (target : Target)
    (va_type : VideoAccelerationType) (dict : option AVDictionary) : string :=
  let va_name := getVideoAccelerationName va_type in
  let key_name := "hw_encoders_" ++ va_name in
  match dict_value dict key_name with
  | Some hw_acceleration => hw_acceleration
  | None => encoder_default target va_type
  end.

Definition getDecoderDisabledCodecs (target : Target) (dict : option AVDictionary) : string :=
  match dict_value dict "hw_disable_decoders" with
  | Some disabled_codecs => disabled_codecs
  | None =>
      match target with
      | Win32 => "none"
      | NotWin32 => "av1.vaapi,av1_qsv,vp8.vaapi,vp8_qsv"
      end
  end.

Definition getEncoderDisabledCodecs (target : Target) (dict : option AVDictionary) : string :=
  match dict_value dict "hw_disabled_encoders" with
  | Some disabled_codecs => disabled_codecs
  | None =>
      match target with
      | Win32 => "mjpeg_qsv"
      | NotWin32 => "mjpeg_vaapi,mjpeg_qsv,vp8_vaapi"
      end
  end.

(** ** libavutil's table of device type names *)

Definition av_hwdevice_get_type_name (hw_type : AVHWDeviceType) : option string :=
  match hw_type with
  | AV_HWDEVICE_TYPE_NONE => None
  | AV_HWDEVICE_TYPE_VDPAU => Some "vdpau"
  | AV_HWDEVICE_TYPE_CUDA => Some "cuda"
  | AV_HWDEVICE_TYPE_VAAPI => Some "vaapi"
  | AV_HWDEVICE_TYPE_DXVA2 => Some "dxva2"
  | AV_HWDEVICE_TYPE_QSV => Some "qsv"
  | AV_HWDEVICE_TYPE_VIDEOTOOLBOX => Some "videotoolbox"
  | AV_HWDEVICE_TYPE_D3D11VA => Some "d3d11va"
  | AV_HWDEVICE_TYPE_DRM => Some "drm"
  | AV_HWDEVICE_TYPE_OPENCL => Some "opencl"
  | AV_HWDEVICE_TYPE_MEDIACODEC => Some "mediacodec"
  | AV_HWDEVICE_TYPE_VULKAN => Some "vulkan"
  end.

Definition hw_device_types : list AVHWDeviceType :=
  [ AV_HWDEVICE_TYPE_NONE; AV_HWDEVICE_TYPE_VDPAU; AV_HWDEVICE_TYPE_CUDA;
    AV_HWDEVICE_TYPE_VAAPI; AV_HWDEVICE_TYPE_DXVA2; AV_HWDEVICE_TYPE_QSV;
    AV_HWDEVICE_TYPE_VIDEOTOOLBOX; AV_HWDEVICE_TYPE_D3D11VA; AV_HWDEVICE_TYPE_DRM;
    AV_HWDEVICE_TYPE_OPENCL; AV_HWDEVICE_TYPE_MEDIACODEC; AV_HWDEVICE_TYPE_VULKAN ].

(** [av_hwdevice_find_type_by_name]: the first type of the table whose name
    is [name], [AV_HWDEVICE_TYPE_NONE] when there is none. *)
Definition av_hwdevice_find_type_by_name (name : string) : AVHWDeviceType :=
  match List.find (fun t => match av_hwdevice_get_type_name t with
                            | Some n => String.eqb n name
                            | None => false
                            end) hw_device_types with
  | Some t => t
  | None => AV_HWDEVICE_TYPE_NONE
  end.

(** ** Candidate iterator *)

Record HWAccelIterator := mk_iter {
  s_stream_ : istringstream;
  hw_type_device_string_ : string;
  hw_type_string_ : string;
  hw_type_ : AVHWDeviceType;
  device_subname_ : string;
  disabled_codecs_ : string
}.

Definition updateAccelList_ (target : Target) (accel_list : string)
    (va_type : VideoAccelerationType) (isEncoder : bool)
    (dict : option AVDictionary) : bool * string :=
  let new_accels := if isEncoder
                    then getEncoderConfiguration target va_type dict
                    else getDecoderConfiguration target va_type dict in
  if empty new_accels then (false, accel_list)
  else if empty accel_list then (true, new_accels)
  else (true, accel_list ++ "," ++ new_accels).

(** The local [accel_list] of the constructor, as it stands when the
    stream is set up. *)
Definition accel_list_of (target : Target) (va_type : VideoAccelerationType)
    (isEncoder : bool) (dict : option AVDictionary) : string :=
  let accel_list := "" in
  let accel_list :=
    if decide (va_type <> VIDEO_ACCELERATION_NONE)
    then snd (updateAccelList_ target accel_list va_type isEncoder dict)
    else accel_list in
  if decide (va_type = VIDEO_ACCELERATION_ANY) then
    if negb (empty accel_list) then accel_list ++ "," else accel_list
  else accel_list.

Definition HWAccelIterator_new (target : Target) (va_type : VideoAccelerationType)
    (isEncoder : bool) (dict : option AVDictionary) : HWAccelIterator :=
  let accel_list := accel_list_of target va_type isEncoder dict in
  let s_stream :=
    if (empty accel_list
        && bool_decide (va_type <> VIDEO_ACCELERATION_NONE)
        && bool_decide (va_type <> VIDEO_ACCELERATION_ANY))%bool
    then fst (extract_word istringstream_default "")
    else istringstream_of accel_list in
  let disabled_codecs :=
    if decide (va_type <> VIDEO_ACCELERATION_NONE)
    then (if isEncoder then getEncoderDisabledCodecs target dict
          else getDecoderDisabledCodecs target dict)
    else "" in
  mk_iter s_stream "" "" AV_HWDEVICE_TYPE_NONE "" disabled_codecs.

Definition iter_good (it : HWAccelIterator) : bool := good (s_stream_ it).

Definition parse_next (it : HWAccelIterator) : HWAccelIterator :=
  let '(s, tok) := getline (s_stream_ it) (hw_type_device_string_ it) comma in
  let '(hw_type_string, device_subname) :=
    match find_char dot tok with
    | Some index =>
        (String.substring 0 index tok,
         String.substring (S index) (String.length tok - S index) tok)
    | None => (tok, "")
    end in
  mk_iter s tok hw_type_string
          (av_hwdevice_find_type_by_name hw_type_string)
          device_subname (disabled_codecs_ it).

(** The caller's loop [while (it.good()) { it.parse_next(); ... }], keeping
    the entry read at each turn. [None] when the fuel runs out. *)
Fixpoint entries_loop (fuel : nat) (it : HWAccelIterator) : option (list string) :=
  match fuel with
  | O => None
  | S fuel' =>
      if iter_good it then
        let it' := parse_next it in
        option_map (cons (hw_type_device_string_ it')) (entries_loop fuel' it')
      else Some []
  end.

Definition entries (it : HWAccelIterator) : option (list string) :=
  entries_loop (S (S (String.length (rdbuf (s_stream_ it))))) it.

(** The comma-separated tokens of a list, as the spec words them: the
    pieces between consecutive commas. *)
Fixpoint comma_tokens (s : string) : list string :=
  match s with
  | EmptyString => [EmptyString]
  | String c rest =>
      if Ascii.eqb c comma then EmptyString :: comma_tokens rest
      else match comma_tokens rest with
           | tok :: toks => String c tok :: toks
           | [] => [String c EmptyString]
           end
  end.

(** The candidates a configuration fragment stands for: none when it is
    empty, its comma-separated tokens otherwise. *)
Definition fragment_entries (frag : string) : list string :=
  if empty frag then [] else comma_tokens frag.

(** ** Reference-counted device contexts *)

(** An [AVBufferRef*]: the reference itself ([ref_addr], what pointer
    comparison sees) and the buffer it refers to. *)
Record AVBufferRef := mk_ref {
  ref_addr : N;
  buffer : N
}.

(** The one destructor callback the code installs. *)
Inductive FreeCallback := FreeChildContext_free.

Record AVHWDeviceContext := mk_device {
  type : AVHWDeviceType;
  hwctx : bool;                       (* the payload pointer is not NULL *)
  user_opaque : option AVBufferRef;
  free : option FreeCallback
}.

Record AVBuffer := mk_buffer {
  refcount : nat;
  data : AVHWDeviceContext
}.

(** The store of the library: the live buffers, the next fresh addresses,
    and the buffers released so far, oldest first. *)
Record Heap := mk_heap {
  buffers : gmap N AVBuffer;
  next_buffer : N;
  next_ref : N;
  released : list N
}.

Definition empty_heap : Heap := mk_heap ∅ 0%N 0%N [].

(** Computations on the store; [None] is undefined behaviour (a reference
    to a released buffer is followed or released again). *)
Definition M (A : Type) : Type := Heap -> option (A * Heap).

#[global] Instance M_ret : MRet M := fun A (a : A) h => Some (a, h).
#[global] Instance M_bind : MBind M := fun A B (f : A -> M B) (m : M A) h =>
  match m h with
  | Some (a, h') => f a h'
  | None => None
  end.

(** Reading the store without changing it. *)
Definition read {A : Type} (f : Heap -> option A) : M A := fun h =>
  match f h with
  | Some a => Some (a, h)
  | None => None
  end.

Definition deref (h : Heap) (r : AVBufferRef) : option AVHWDeviceContext :=
  data <$> buffers h !! buffer r.

Definition set_refcount (n : nat) (b : AVBuffer) : AVBuffer := mk_buffer n (data b).
Definition set_data (d : AVHWDeviceContext) (b : AVBuffer) : AVBuffer := mk_buffer (refcount b) d.

(** [av_buffer_ref]: a new reference to the same buffer, or [NULL] when
    the library has no memory for it; [ref_outcome] tells which, and a
    failed call leaves the store alone. *)
Definition av_buffer_ref (ref_outcome : AVBufferRef -> bool) (r : AVBufferRef)
  : M (option AVBufferRef) := fun h =>
  match buffers h !! buffer r with
  | Some b =>
      if decide (refcount b = O) then None
      else if ref_outcome r then
        Some (Some (mk_ref (next_ref h) (buffer r)),
              mk_heap (<[buffer r := set_refcount (S (refcount b)) b]> (buffers h))
                      (next_buffer h) (N.succ (next_ref h)) (released h))
      else Some (None, h)
  | None => None
  end.

(** [av_buffer_unref]: the count goes down by one; the holder of the last
    reference runs the context's [free] callback and then releases the
    buffer. [FreeChildContext::free] gives up the child kept in
    [user_opaque]. *)
Fixpoint av_buffer_unref_fuel (fuel : nat) (r : AVBufferRef) (h : Heap) : option (unit * Heap) :=
  match fuel with
  | O => None
  | S fuel' =>
      match buffers h !! buffer r with
      | None => None
      | Some b =>
          match refcount b with
          | O => None
          | S O =>
              let h0 := mk_heap (<[buffer r := set_refcount O b]> (buffers h))
                                (next_buffer h) (next_ref h) (released h) in
              let after_callback :=
                match free (data b) with
                | Some FreeChildContext_free =>
                    match user_opaque (data b) with
                    | Some child_ctx => av_buffer_unref_fuel fuel' child_ctx h0
                    | None => Some (tt, h0)
                    end
                | None => Some (tt, h0)
                end in
              match after_callback with
              | Some (_, h1) =>
                  Some (tt, mk_heap (delete (buffer r) (buffers h1))
                                    (next_buffer h1) (next_ref h1)
                                    (released h1 ++ [buffer r]))
              | None => None
              end
          | S n =>
              Some (tt, mk_heap (<[buffer r := set_refcount n b]> (buffers h))
                                (next_buffer h) (next_ref h) (released h))
          end
      end
  end.

Definition av_buffer_unref (r : AVBufferRef) : M unit := fun h =>
  av_buffer_unref_fuel (S (S (size (buffers h)))) r h.

(** A fresh buffer with one reference to it. *)
Definition alloc_device (d : AVHWDeviceContext) : M AVBufferRef := fun h =>
  Some (mk_ref (next_ref h) (next_buffer h),
        mk_heap (<[next_buffer h := mk_buffer 1 d]> (buffers h))
                (N.succ (next_buffer h)) (N.succ (next_ref h)) (released h)).

(** [ctx->user_opaque = ...; ctx->free = ...] through a reference; what
    is stored is whatever [av_buffer_ref] returned, [NULL] included. *)
Definition store_child (r : AVBufferRef) (child : option AVBufferRef) : M unit := fun h =>
  match buffers h !! buffer r with
  | Some b =>
      let d := data b in
      Some (tt, mk_heap (<[buffer r := set_data (mk_device (type d) (hwctx d) child
                                                            (Some FreeChildContext_free)) b]>
                           (buffers h))
                        (next_buffer h) (next_ref h) (released h))
  | None => None
  end.

(** What a creation call of the library comes back with: whether the
    output pointer is set, the error code, and whether the new context
    carries a hardware payload. *)
Record Outcome := mk_outcome {
  created : bool;
  err : Z;
  payload : bool
}.

(** ** Device validation *)

Definition hw_check_device (h : Heap) (ctx : option AVBufferRef)
    (hw_type : AVHWDeviceType) (device_subname : string) : option bool :=
  match ctx with
  | None => Some false
  | Some r =>
      match deref h r with
      | None => None
      | Some hw_device_ctx =>
          if negb (hwctx hw_device_ctx) then Some false
          else
            let ret := true in
            let device_name := "" in
            let ret :=
              if decide (type hw_device_ctx = AV_HWDEVICE_TYPE_VAAPI)
              then bool_decide (hw_type <> AV_HWDEVICE_TYPE_QSV)
              else ret in
            let ret :=
              if (ret && negb (empty device_subname)
                  && bool_decide (find device_name device_subname = None))%bool
              then false
              else ret in
            Some ret
      end
  end.

(** ** Device context builder *)

Section DeviceBuilder.

Variable target : Target.

(** [av_hwdevice_ctx_create(&ctx, type, device, NULL, 0)],
    [av_hwdevice_ctx_create_derived(&ctx, type, src, 0)] and
    [av_buffer_ref(ref)] as the library answers them. *)
Variable device_outcome : AVHWDeviceType -> option string -> Outcome.
Variable derived_outcome : AVHWDeviceType -> AVHWDeviceContext -> Outcome.
Variable ref_outcome : AVBufferRef -> bool.

(** A context the library creates carries the type it was asked for, no
    child and no callback. *)
Definition av_hwdevice_ctx_create (hw_type : AVHWDeviceType) (device : option string)
  : M (option AVBufferRef * Z) :=
  let o := device_outcome hw_type device in
  if created o then
    r ← alloc_device (mk_device hw_type (payload o) None None);
    mret (Some r, err o)
  else mret (None, err o).

(** A context the library derives is a new buffer of the type asked for,
    with no child and no callback yet. The library answers so when the
    source is not of that type and was not derived from a context of that
    type, which is how the builder calls it: it derives only under
    [hw_type != child_type], from a context it has just created. *)
Definition av_hwdevice_ctx_create_derived (hw_type : AVHWDeviceType) (src : AVBufferRef)
  : M (option AVBufferRef * Z) :=
  src_ctx ← read (fun h => deref h src);
  let o := derived_outcome hw_type src_ctx in
  if created o then
    r ← alloc_device (mk_device hw_type (payload o) None None);
    mret (Some r, err o)
  else mret (None, err o).

Definition hw_create_derived_context (hw_type : AVHWDeviceType) (hw_device_ctx : AVBufferRef)
  : M (option AVBufferRef) :=
  '(derived_ctx, err) ← av_hwdevice_ctx_create_derived hw_type hw_device_ctx;
  match derived_ctx with
  | Some derived =>
      if err <? 0 then
        av_buffer_unref derived;; mret None
      else
        child ← av_buffer_ref ref_outcome hw_device_ctx;
        store_child derived child;;
        mret (Some derived)
  | None => mret None
  end.

Definition child_types_of (hw_type : AVHWDeviceType) : list AVHWDeviceType :=
  if decide (hw_type = AV_HWDEVICE_TYPE_QSV) then
    match target with
    | Win32 => [AV_HWDEVICE_TYPE_D3D11VA; AV_HWDEVICE_TYPE_DXVA2]
    | NotWin32 => [AV_HWDEVICE_TYPE_VAAPI]
    end
  else [hw_type].

(** The device selector passed to the library, [None] for [NULL]. *)
Definition device_selector (child_type : AVHWDeviceType) (hw_device : Z) : option string :=
  if ((0 <=? hw_device) && (hw_device <? 100000))%bool then
    if decide (child_type = AV_HWDEVICE_TYPE_VAAPI)
    then Some ("/dev/dri/renderD" ++ decimal (128 + hw_device))
    else Some (decimal hw_device)
  else None.

Fixpoint hw_create_device_loop (hw_type : AVHWDeviceType) (hw_device : Z)
    (device_subname : string) (child_types : list AVHWDeviceType)
  : M (option AVBufferRef) :=
  match child_types with
  | [] => mret None
  | child_type :: rest =>
      let pdevice := device_selector child_type hw_device in
      '(hw_device_ctx, err) ← av_hwdevice_ctx_create child_type pdevice;
      match hw_device_ctx with
      | Some ctx =>
          if 0 <=? err then
            ok ← read (fun h => hw_check_device h (Some ctx) hw_type device_subname);
            if negb ok then
              av_buffer_unref ctx;;
              hw_create_device_loop hw_type hw_device device_subname rest
            else if decide (hw_type <> child_type) then
              derived_ctx ← hw_create_derived_context hw_type ctx;
              av_buffer_unref ctx;;
              mret derived_ctx
            else mret (Some ctx)
          else hw_create_device_loop hw_type hw_device device_subname rest
      | None => hw_create_device_loop hw_type hw_device device_subname rest
      end
  end.

Definition hw_create_device (hw_type : AVHWDeviceType) (hw_device : Z)
    (device_subname : string) (use_opencl : bool) : M (option AVBufferRef) :=
  if decide (AV_HWDEVICE_TYPE_NONE = hw_type) then mret None
  else hw_create_device_loop hw_type hw_device device_subname (child_types_of hw_type).

End DeviceBuilder.

(** ** Codecs, codec contexts and frame pools *)

Record AVCodecHWConfig := mk_hw_config {
  pix_fmt : AVPixelFormat;
  methods : Z;
  device_type : AVHWDeviceType
}.

(** [pix_fmts] is [None] for a [NULL] array; [is_encoder] is what
    [av_codec_is_encoder] answers; [hw_configs] lists what
    [avcodec_get_hw_config(c, 0)], [(c, 1)], ... return before [NULL]. *)
Record AVCodec := mk_codec {
  codec_name : string;
  codec_id : Z;
  capabilities : Z;
  pix_fmts : option (list AVPixelFormat);
  is_encoder : bool;
  hw_configs : list AVCodecHWConfig
}.

Definition AV_CODEC_CAP_EXPERIMENTAL : Z := Z.shiftl 1 9.
Definition AV_CODEC_HW_CONFIG_METHOD_HW_FRAMES_CTX : Z := 2.
Definition AV_HWFRAME_MAP_READ : Z := 1.
Definition AV_HWFRAME_MAP_WRITE : Z := 2.

#[local] Unset Elimination Schemes.
Inductive AVHWFramesContext := mk_frames {
  format : AVPixelFormat;
  sw_format : AVPixelFormat;
  width : Z;
  height : Z;
  initial_pool_size : Z;
  frames_user_opaque : option AVHWFramesContext
}.
#[local] Set Elimination Schemes.

Record AVCodecContext := mk_codec_ctx {
  hw_device_ctx : option AVBufferRef;
  codec : AVCodec;
  ctx_width : Z;
  ctx_height : Z;
  sw_pix_fmt : AVPixelFormat;
  hw_frames_ctx : option AVHWFramesContext
}.

(** An array that ends with [AV_PIX_FMT_NONE]: the list holds what is
    stored, reading stops at the first [AV_PIX_FMT_NONE] and the end of the
    list is the terminator. *)
Definition first_format (fmt : list AVPixelFormat) : AVPixelFormat :=
  match fmt with
  | f :: _ => f
  | [] => AV_PIX_FMT_NONE
  end.

(** ** Frame pool builder *)

Section FramePool.

(** The library's answers. [avcodec_get_hw_frames_parameters] gives its
    result code and the descriptor it may have produced;
    [av_hwframe_ctx_alloc] a descriptor or [NULL];
    [av_hwdevice_get_hwframe_constraints] the [valid_hw_formats] array or
    [NULL]; [av_hwframe_ctx_init] its result code;
    [av_hwframe_ctx_create_derived] its result code and the derived pool. *)
Variable avcodec_get_hw_frames_parameters :
  AVCodecContext -> AVBufferRef -> AVPixelFormat -> Z * option AVHWFramesContext.
Variable av_hwframe_ctx_alloc : AVBufferRef -> option AVHWFramesContext.
Variable av_hwdevice_get_hwframe_constraints : AVBufferRef -> option (list AVPixelFormat).
Variable av_hwframe_ctx_init : AVHWFramesContext -> Z.
Variable av_hwframe_ctx_create_derived :
  AVPixelFormat -> AVBufferRef -> AVHWFramesContext -> Z -> Z * option AVHWFramesContext.

(** The context the frames are allocated against. *)
Definition frames_child_ctx (h : Heap) (hw_device_ctx : AVBufferRef) : option AVBufferRef :=
  match deref h hw_device_ctx with
  | None => None
  | Some device_ctx =>
      if decide (AV_HWDEVICE_TYPE_QSV = type device_ctx) then
        match user_opaque device_ctx with
        | Some ctx =>
            match deref h ctx with
            | None => None
            | Some child =>
                if decide (AV_HWDEVICE_TYPE_DXVA2 <> type child)
                then Some ctx else Some hw_device_ctx
            end
        | None => Some hw_device_ctx
        end
      else Some hw_device_ctx
  end.

(** The descriptor before the fill-in: the one the codec's capability
    query produced, or else a newly allocated one. *)
Definition supplied_frames (codec_ctx : option AVCodecContext)
    (child_ctx : AVBufferRef) (hw_format : AVPixelFormat) : option AVHWFramesContext :=
  let hw_frames_ref :=
    match codec_ctx with
    | Some cc => snd (avcodec_get_hw_frames_parameters cc child_ctx hw_format)
    | None => None
    end in
  match hw_frames_ref with
  | Some f => Some f
  | None => av_hwframe_ctx_alloc child_ctx
  end.

(** Lines 326 to 344: the fields of the descriptor after the fill-in. *)
Definition fill_frames (same_ctx : bool) (child_ctx : AVBufferRef)
    (width height : Z) (hw_format : AVPixelFormat)
    (frames_ctx : AVHWFramesContext) : AVHWFramesContext :=
  let fmt :=
    if decide (format frames_ctx = AV_PIX_FMT_NONE) then
      if same_ctx then hw_format
      else match av_hwdevice_get_hwframe_constraints child_ctx with
           | Some valid_hw_formats => first_format valid_hw_formats
           | None => format frames_ctx
           end
    else format frames_ctx in
  let sw :=
    if decide (sw_format frames_ctx = AV_PIX_FMT_NONE)
    then HW_DEFAULT_SW_FORMAT else sw_format frames_ctx in
  let pool :=
    if initial_pool_size frames_ctx =? 0
    then HW_DEFAULT_POOL_SIZE else initial_pool_size frames_ctx in
  mk_frames fmt sw width height pool (frames_user_opaque frames_ctx).

Definition set_frames_user_opaque (p : AVHWFramesContext) (d : AVHWFramesContext)
  : AVHWFramesContext :=
  mk_frames (format d) (sw_format d) (width d) (height d) (initial_pool_size d) (Some p).

(** The outer [None] is undefined behaviour (a released device context,
    or a derived pool that is [NULL] with a result code that is not
    negative); [Some None] is the [NULL] the function returns. *)
Definition hw_create_frames (h : Heap) (codec_ctx : option AVCodecContext)
    (hw_device_ctx : AVBufferRef) (width height : Z) (hw_format : AVPixelFormat)
  : option (option AVHWFramesContext) :=
  match frames_child_ctx h hw_device_ctx with
  | None => None
  | Some child_ctx =>
      let same_ctx := bool_decide (ref_addr child_ctx = ref_addr hw_device_ctx) in
      match supplied_frames codec_ctx child_ctx hw_format with
      | None => Some None
      | Some frames_ctx0 =>
          let frames_ctx := fill_frames same_ctx child_ctx width height hw_format frames_ctx0 in
          if av_hwframe_ctx_init frames_ctx <? 0 then Some None
          else if negb same_ctx then
            let flags := Z.lor AV_HWFRAME_MAP_READ AV_HWFRAME_MAP_WRITE in
            match av_hwframe_ctx_create_derived hw_format hw_device_ctx frames_ctx flags with
            | (res, derived_frame_ctx) =>
                if res <? 0 then Some None
                else match derived_frame_ctx with
                     | Some d => Some (Some (set_frames_user_opaque frames_ctx d))
                     | None => None
                     end
            end
          else Some (Some frames_ctx)
      end
  end.

(** ** Format-selection callback *)

(** The inner loop over the offered formats for one hardware config. The
    first component is the format returned from inside the loop, if any. *)
Fixpoint offered_loop (h : Heap) (hw_config : AVCodecHWConfig)
    (fmt : list AVPixelFormat) (ctx : AVCodecContext) (dev : AVBufferRef)
  : option (option AVPixelFormat * AVCodecContext) :=
  match fmt with
  | [] => Some (None, ctx)
  | f :: rest =>
      if decide (f = AV_PIX_FMT_NONE) then Some (None, ctx)
      else if decide (f = pix_fmt hw_config) then
        if negb (Z.land (methods hw_config) AV_CODEC_HW_CONFIG_METHOD_HW_FRAMES_CTX =? 0) then
          let ctx1 := mk_codec_ctx (hw_device_ctx ctx) (codec ctx) (ctx_width ctx)
                                   (ctx_height ctx) HW_DEFAULT_SW_FORMAT (hw_frames_ctx ctx) in
          match hw_create_frames h (Some ctx1) dev (ctx_width ctx1) (ctx_height ctx1) f with
          | None => None
          | Some frames =>
              let ctx2 := mk_codec_ctx (hw_device_ctx ctx1) (codec ctx1) (ctx_width ctx1)
                                       (ctx_height ctx1) (sw_pix_fmt ctx1) frames in
              match frames with
              | Some _ => Some (Some f, ctx2)
              | None => offered_loop h hw_config rest ctx2 dev
              end
          end
        else offered_loop h hw_config rest ctx dev
      else offered_loop h hw_config rest ctx dev
  end.

Fixpoint configs_loop (h : Heap) (hw_type : AVHWDeviceType)
    (configs : list AVCodecHWConfig) (fmt : list AVPixelFormat)
    (ctx : AVCodecContext) (dev : AVBufferRef)
  : option (option AVPixelFormat * AVCodecContext) :=
  match configs with
  | [] => Some (None, ctx)
  | hw_config :: rest =>
      if decide (device_type hw_config = hw_type) then
        match offered_loop h hw_config fmt ctx dev with
        | None => None
        | Some (Some f, ctx') => Some (Some f, ctx')
        | Some (None, ctx') => configs_loop h hw_type rest fmt ctx' dev
        end
      else configs_loop h hw_type rest fmt ctx dev
  end.

Definition hw_get_format_callback (h : Heap) (ctx : AVCodecContext)
    (fmt : list AVPixelFormat) : option (AVPixelFormat * AVCodecContext) :=
  match hw_device_ctx ctx with
  | None => Some (first_format fmt, ctx)
  | Some dev =>
      match deref h dev with
      | None => None
      | Some d =>
          let hw_type := type d in
          match configs_loop h hw_type (hw_configs (codec ctx)) fmt ctx dev with
          | None => None
          | Some (Some f, ctx') => Some (f, ctx')
          | Some (None, ctx') => Some (first_format fmt, ctx')
          end
      end
  end.

End FramePool.

(** ** Codec selector *)

(** [None] when [CV_Assert(disabled_codecs)] fails or the type has no name
    to append to the dot. *)
Fixpoint hw_check_codec_loop (fuel : nat) (s_stream : istringstream)
    (codec_name hw_name : string) : option bool :=
  match fuel with
  | O => None
  | S fuel' =>
      if good s_stream then
        let '(s_stream', name) := getline s_stream "" comma in
        if (String.eqb name codec_name || String.eqb name hw_name
            || String.eqb name (codec_name ++ hw_name) || String.eqb name "hw")%bool
        then Some false
        else hw_check_codec_loop fuel' s_stream' codec_name hw_name
      else Some true
  end.

Definition hw_check_codec (c : AVCodec) (hw_type : AVHWDeviceType)
    (disabled_codecs : option string) : option bool :=
  match disabled_codecs with
  | None => None
  | Some disabled =>
      match av_hwdevice_get_type_name hw_type with
      | None => None
      | Some type_name =>
          let hw_name := "." ++ type_name in
          hw_check_codec_loop (S (S (String.length disabled)))
                              (istringstream_of disabled) (codec_name c) hw_name
      end
  end.

Section CodecSelector.

(** The codecs in the order [av_codec_iterate] yields them, and whether
    [LIBAVUTIL_BUILD < AV_VERSION_INT(56, 51, 100)]. *)
Variable codecs : list AVCodec.
Variable old_libavutil : bool.

(** The loop over [c->pix_fmts]. [Some (true, f)] is [return c] with
    [*hw_pix_fmt = f]. *)
Fixpoint pix_fmts_loop (c : AVCodec) (hw_type : AVHWDeviceType)
    (disabled_codecs : option string) (hw_native_fmt : AVPixelFormat)
    (fmts : list AVPixelFormat) (hw_pix_fmt : AVPixelFormat)
  : option (bool * AVPixelFormat) :=
  match fmts with
  | [] => Some (false, hw_pix_fmt)
  | f :: rest =>
      if decide (f = AV_PIX_FMT_NONE) then Some (false, hw_pix_fmt)
      else if decide (f = hw_native_fmt) then
        match hw_check_codec c hw_type disabled_codecs with
        | None => None
        | Some true => Some (true, hw_native_fmt)
        | Some false =>
            pix_fmts_loop c hw_type disabled_codecs hw_native_fmt rest hw_native_fmt
        end
      else pix_fmts_loop c hw_type disabled_codecs hw_native_fmt rest hw_pix_fmt
  end.

(** The loop over [avcodec_get_hw_config(c, i)]. *)
Fixpoint hw_config_loop (c : AVCodec) (hw_type : AVHWDeviceType)
    (disabled_codecs : option string) (configs : list AVCodecHWConfig)
    (hw_pix_fmt : AVPixelFormat) : option (bool * AVPixelFormat) :=
  match configs with
  | [] => Some (false, hw_pix_fmt)
  | hw_config :: rest =>
      if decide (device_type hw_config = hw_type) then
        match hw_check_codec c hw_type disabled_codecs with
        | None => None
        | Some true => Some (true, pix_fmt hw_config)
        | Some false =>
            hw_config_loop c hw_type disabled_codecs rest (pix_fmt hw_config)
        end
      else hw_config_loop c hw_type disabled_codecs rest hw_pix_fmt
  end.

Definition native_format (hw_type : AVHWDeviceType) : AVPixelFormat :=
  let hw_native_fmt := AV_PIX_FMT_NONE in
  let hw_native_fmt :=
    if (old_libavutil && bool_decide (hw_type = AV_HWDEVICE_TYPE_VAAPI))%bool
    then AV_PIX_FMT_VAAPI_VLD else hw_native_fmt in
  if decide (hw_type = AV_HWDEVICE_TYPE_CUDA) then AV_PIX_FMT_CUDA else hw_native_fmt.

(** The result and the final content of [*hw_pix_fmt]. *)
Fixpoint hw_find_codec_loop (cs : list AVCodec) (id : Z) (hw_type : AVHWDeviceType)
    (check_category : AVCodec -> Z) (disabled_codecs : option string)
    (hw_pix_fmt : AVPixelFormat) : option (option AVCodec * AVPixelFormat) :=
  match cs with
  | [] => Some (None, hw_pix_fmt)
  | c :: rest =>
      if check_category c =? 0 then
        hw_find_codec_loop rest id hw_type check_category disabled_codecs hw_pix_fmt
      else if negb (codec_id c =? id) then
        hw_find_codec_loop rest id hw_type check_category disabled_codecs hw_pix_fmt
      else if negb (Z.land (capabilities c) AV_CODEC_CAP_EXPERIMENTAL =? 0) then
        hw_find_codec_loop rest id hw_type check_category disabled_codecs hw_pix_fmt
      else if decide (hw_type <> AV_HWDEVICE_TYPE_NONE) then
        let hw_native_fmt := native_format hw_type in
        let encoder_scan :=
          match pix_fmts c with
          | Some fmts =>
              if (is_encoder c && negb (bool_decide (hw_native_fmt = AV_PIX_FMT_NONE)))%bool
              then pix_fmts_loop c hw_type disabled_codecs hw_native_fmt fmts hw_pix_fmt
              else Some (false, hw_pix_fmt)
          | None => Some (false, hw_pix_fmt)
          end in
        match encoder_scan with
        | None => None
        | Some (true, f) => Some (Some c, f)
        | Some (false, f) =>
            match hw_config_loop c hw_type disabled_codecs (hw_configs c) f with
            | None => None
            | Some (true, f') => Some (Some c, f')
            | Some (false, f') =>
                hw_find_codec_loop rest id hw_type check_category disabled_codecs f'
            end
        end
      else Some (Some c, hw_pix_fmt)
  end.

Definition hw_find_codec (id : Z) (hw_type : AVHWDeviceType)
    (check_category : AVCodec -> Z) (disabled_codecs : option string)
    (hw_pix_fmt : AVPixelFormat) : option (option AVCodec * AVPixelFormat) :=
  hw_find_codec_loop codecs id hw_type check_category disabled_codecs hw_pix_fmt.

End CodecSelector.

Definition hw_type_to_va_type (hw_type : AVHWDeviceType) : VideoAccelerationType :=
  let known_hw_types :=
    [ (AV_HWDEVICE_TYPE_D3D11VA, VIDEO_ACCELERATION_D3D11);
      (AV_HWDEVICE_TYPE_VAAPI, VIDEO_ACCELERATION_VAAPI);
      (AV_HWDEVICE_TYPE_QSV, VIDEO_ACCELERATION_MFX);
      (AV_HWDEVICE_TYPE_CUDA, VIDEO_ACCELERATION_other (Z.shiftl 1 11)) ] in
  match List.find (fun hw => bool_decide (hw_type = fst hw)) known_hw_types with
  | Some hw => snd hw
  | None => VIDEO_ACCELERATION_NONE
  end.

(** The four token forms that veto a codec, as the spec lists them: the
    bare codec name, the dotted suffix, their concatenation, and "hw". *)
Definition vetoes (codec_name hw_name tok : string) : bool :=
  (String.eqb tok codec_name || String.eqb tok hw_name
   || String.eqb tok (codec_name ++ hw_name) || String.eqb tok "hw")%bool.

(** The configuration fragment of a preference: the override under the
    role's key when the dictionary has it, the built-in default of the
    platform otherwise. *)
Definition override_key (va_type : VideoAccelerationType) (isEncoder : bool) : string :=
  (if isEncoder then "hw_encoders_" else "hw_decoders_") ++ getVideoAccelerationName va_type.

Definition fragment_of (target : Target) (va_type : VideoAccelerationType)
    (isEncoder : bool) (dict : option AVDictionary) : string :=
  match dict_value dict (override_key va_type isEncoder) with
  | Some override => override
  | None => if isEncoder then encoder_default target va_type
            else decoder_default target va_type
  end.



(** The candidate list as the spec words it: the fragment, and for Any one
    trailing empty entry appended to it in every case. *)
Definition claimed_accel_list (target : Target) (va_type : VideoAccelerationType)
    (isEncoder : bool) (dict : option AVDictionary) : string :=
  let frag := fragment_of target va_type isEncoder dict in
  if decide (va_type = VIDEO_ACCELERATION_ANY) then frag ++ "," else frag.

(** A dictionary that overrides the decoder list of Any with the empty
    string. *)
Definition empty_any_override : option AVDictionary := Some [("hw_decoders_any", "")].

(** ** Sample inputs *)

(** A store with one VAAPI context held by one reference. *)
Definition sample_heap : Heap :=
  mk_heap {[ 0%N := mk_buffer 1 (mk_device AV_HWDEVICE_TYPE_VAAPI true None None) ]}
          1%N 1%N [].
Definition sample_device : AVBufferRef := mk_ref 0 0.

Definition sample_codec : AVCodec :=
  mk_codec "h264" 27 0 None false
           [mk_hw_config AV_PIX_FMT_VAAPI_VLD 3 AV_HWDEVICE_TYPE_VAAPI].

Definition sample_ctx (dev : option AVBufferRef) : AVCodecContext :=
  mk_codec_ctx dev sample_codec 640 480 AV_PIX_FMT_NONE None.

(** A library that creates and derives every context asked for. *)
Definition always_created : AVHWDeviceType -> option string -> Outcome :=
  fun _ _ => mk_outcome true 0 true.
Definition always_derived : AVHWDeviceType -> AVHWDeviceContext -> Outcome :=
  fun _ _ => mk_outcome true 0 true.

(** A library that always has the memory for one more reference, and one
    that never has. *)
Definition always_referenced : AVBufferRef -> bool := fun _ => true.

(** The store after that library has built the media-SDK context on
    Windows from an empty store: buffer 0 is the D3D11 child, buffer 1 the
    derived parent. *)
Definition sample_parent : AVBufferRef := mk_ref 1 1.
Definition sample_derived_heap : Heap :=
  mk_heap (<[ 1%N := mk_buffer 1 (mk_device AV_HWDEVICE_TYPE_QSV true
                                            (Some (mk_ref 2 0))
                                            (Some FreeChildContext_free)) ]>
           {[ 0%N := mk_buffer 1 (mk_device AV_HWDEVICE_TYPE_D3D11VA true None None) ]})
          2%N 3%N [].


(** A codec without frame parameters, a blank descriptor, and a derivation
    that copies the size and the software format of its source. *)
Definition no_parameters
  : AVCodecContext -> AVBufferRef -> AVPixelFormat -> Z * option AVHWFramesContext :=
  fun _ _ _ => (-1, None).
Definition blank_frames : AVHWFramesContext :=
  mk_frames AV_PIX_FMT_NONE AV_PIX_FMT_NONE 0 0 0 None.
Definition alloc_blank : AVBufferRef -> option AVHWFramesContext :=
  fun _ => Some blank_frames.
Definition sample_pool : AVHWFramesContext :=
  mk_frames AV_PIX_FMT_VAAPI_VLD AV_PIX_FMT_NV12 640 480 32 None.
(** The pool built on that media-SDK context: derived from the pool of
    the D3D11 child, which it points back to. *)
Definition sample_child_pool : AVHWFramesContext :=
  mk_frames AV_PIX_FMT_NONE AV_PIX_FMT_NV12 640 480 32 None.
Definition sample_derived_pool : AVHWFramesContext :=
  mk_frames (AV_PIX_FMT_other 116) AV_PIX_FMT_NV12 640 480 0 (Some sample_child_pool).
Definition no_constraints : AVBufferRef -> option (list AVPixelFormat) := fun _ => None.
Definition init_ok : AVHWFramesContext -> Z := fun _ => 0.
Definition derive_copy
  : AVPixelFormat -> AVBufferRef -> AVHWFramesContext -> Z -> Z * option AVHWFramesContext :=
  fun f _ src _ => (0, Some (mk_frames f (sw_format src) (width src) (height src) 0 None)).

(** ** Notions used by the further properties *)

(** A candidate list written out: the entries with a comma between
    consecutive ones. *)
Fixpoint join_commas (toks : list string) : string :=
  match toks with
  | [] => ""
  | [tok] => tok
  | tok :: rest => tok ++ "," ++ join_commas rest
  end.

Definition has_comma (s : string) : bool :=
  match find_char comma s with Some _ => true | None => false end.

(** The caller's loop once more, keeping the backend type and the device
    filter parsed at each turn. *)
Fixpoint candidates_loop (fuel : nat) (it : HWAccelIterator)
  : option (list (AVHWDeviceType * string)) :=
  match fuel with
  | O => None
  | S fuel' =>
      if iter_good it then
        let it' := parse_next it in
        option_map (cons (hw_type_ it', device_subname_ it')) (candidates_loop fuel' it')
      else Some []
  end.

Definition candidates (it : HWAccelIterator) : option (list (AVHWDeviceType * string)) :=
  candidates_loop (S (S (String.length (rdbuf (s_stream_ it))))) it.

(** The three preferences that name one backend. *)
Definition named_backend (va_type : VideoAccelerationType) : Prop :=
  va_type = VIDEO_ACCELERATION_D3D11 \/ va_type = VIDEO_ACCELERATION_VAAPI
  \/ va_type = VIDEO_ACCELERATION_MFX.

(** A store whose next buffer address and the ones after it are unused. *)
Definition heap_fresh (h : Heap) : Prop :=
  forall k : N, (next_buffer h <= k)%N -> buffers h !! k = None.

(** A library that never hands back a context together with an error. *)
Definition no_context_on_error
    (device_outcome : AVHWDeviceType -> option string -> Outcome) : Prop :=
  forall hw_type device,
    created (device_outcome hw_type device) = true ->
    0 <= err (device_outcome hw_type device).

(** [f] is stored in the array before its terminator. *)
Fixpoint array_mem (f : AVPixelFormat) (fmts : list AVPixelFormat) : bool :=
  match fmts with
  | [] => false
  | x :: rest =>
      if decide (x = AV_PIX_FMT_NONE) then false
      else if decide (x = f) then true
      else array_mem f rest
  end.

(** The three tests every codec goes through first: the category check,
    the codec ID, and not being experimental. *)
Definition passes_filters (check_category : AVCodec -> Z) (id : Z) (c : AVCodec) : bool :=
  (negb (check_category c =? 0) && (codec_id c =? id)
   && (Z.land (capabilities c) AV_CODEC_CAP_EXPERIMENTAL =? 0))%bool.

(** A codec offers the backend: it is an encoder listing the backend's
    fixed native format, or one of its hardware configs is for the
    backend's device type. *)
Definition hw_capable (old_libavutil : bool) (c : AVCodec) (hw_type : AVHWDeviceType) : bool :=
  (is_encoder c
   && negb (bool_decide (native_format old_libavutil hw_type = AV_PIX_FMT_NONE))
   && match pix_fmts c with
      | Some fmts => array_mem (native_format old_libavutil hw_type) fmts
      | None => false
      end
   || existsb (fun cfg => bool_decide (device_type cfg = hw_type)) (hw_configs c))%bool.

(** A key with its letters in upper case. *)
Fixpoint upper_case (s : string) : string :=
  match s with
  | EmptyString => EmptyString
  | String a rest => String (av_toupper a) (upper_case rest)
  end.

(** ** More sample inputs *)

(** An iterator read to its end. *)
Definition sample_exhausted : HWAccelIterator :=
  parse_next (HWAccelIterator_new NotWin32 VIDEO_ACCELERATION_VAAPI false None).

(** An override with a repeated backend and a trailing empty entry. *)
Definition sample_override_entries : list string := ["vaapi.CustomGPU"; "vaapi"; ""].
Definition sample_override : option AVDictionary :=
  Some [("hw_decoders_vaapi", "vaapi.CustomGPU,vaapi,")].

(** The reference the derived parent of [sample_derived_heap] keeps. *)
Definition sample_child : AVBufferRef := mk_ref 2 0.

(** An experimental codec ahead of [sample_codec] in the enumeration. *)
Definition sample_codecs : list AVCodec :=
  [mk_codec "h264_experimental" 27 (Z.shiftl 1 9) None false
            [mk_hw_config AV_PIX_FMT_VAAPI_VLD 3 AV_HWDEVICE_TYPE_VAAPI];
   sample_codec].
Definition any_category : AVCodec -> Z := fun _ => 1.

(** The codec context after the callback has pinned [sample_pool]. *)
Definition sample_ctx_pinned : AVCodecContext :=
  mk_codec_ctx (Some sample_device) sample_codec 640 480 AV_PIX_FMT_NV12 (Some sample_pool).

(** * Properties *)

(** ** Strings and streams *)

Lemma empty_true (s : string) : empty s = true <-> s = "".
Proof. destruct s; simpl; split; congruence. Qed.

Lemma empty_false (s : string) : empty s = false <-> s <> "".
Proof. destruct s; simpl; split; congruence. Qed.

Lemma comma_tokens_cons (s : string) :
  exists tok toks, comma_tokens s = tok :: toks.
Proof.
  induction s as [|c s IH]; simpl; [by eauto|].
  destruct (Ascii.eqb c comma); [by eauto|].
  destruct IH as (tok & toks & ->). eauto.
Qed.

(** One [getline] takes the first token off; what is left holds the
    others. *)
Lemma extract_until_comma (buf : string) :
  match extract_until comma buf with
  | (tok, Some rest) =>
      comma_tokens buf = tok :: comma_tokens rest
      /\ (String.length rest < String.length buf)%nat
  | (tok, None) => comma_tokens buf = [tok]
  end.
Proof.
  induction buf as [|c buf IH]; simpl; [done|].
  destruct (Ascii.eqb c comma); [split; [done | lia]|].
  destruct (extract_until comma buf) as [tok [rest|]].
  - destruct IH as [-> Hlen]. split; [done | lia].
  - by rewrite IH.
Qed.

Lemma comma_tokens_app_comma (s : string) :
  comma_tokens (s ++ ",") = (comma_tokens s ++ [""])%list.
Proof.
  induction s as [|c s IH]; simpl; [done|].
  rewrite IH. destruct (Ascii.eqb c comma); [done|].
  destruct (comma_tokens_cons s) as (tok & toks & ->). done.
Qed.

Lemma find_empty_subject (pat : string) : pat <> "" -> find "" pat = None.
Proof. destruct pat; [done|]. intros _. reflexivity. Qed.

(** The caller's loop over a good stream reads exactly the comma-separated
    tokens of its buffer. *)
Lemma entries_loop_tokens (fuel : nat) :
  forall buf a b t d e,
    (String.length buf + 2 <= fuel)%nat ->
    entries_loop fuel (mk_iter (mk_stream buf false false) a b t d e)
    = Some (comma_tokens buf).
Proof.
  induction fuel as [|fuel IH]; intros buf a b t d e Hfuel; [lia|].
  cbn [entries_loop iter_good s_stream_ good eofbit failbit negb andb].
  unfold parse_next, getline.
  cbn [s_stream_ good eofbit failbit negb andb rdbuf hw_type_device_string_ disabled_codecs_].
  pose proof (extract_until_comma buf) as Hx.
  destruct (extract_until comma buf) as [tok [rest|]].
  - destruct Hx as [-> Hlen].
    destruct (find_char dot tok); cbn [hw_type_device_string_];
      rewrite IH by lia; done.
  - rewrite Hx.
    destruct (find_char dot tok); cbn [hw_type_device_string_];
      (destruct fuel as [|fuel']; [simpl in Hfuel; lia|]); done.
Qed.

Lemma entries_of_good_stream (buf a b : string) (t : AVHWDeviceType) (d e : string) :
  entries (mk_iter (istringstream_of buf) a b t d e) = Some (comma_tokens buf).
Proof. unfold entries, istringstream_of. apply entries_loop_tokens. simpl. lia. Qed.

(** The loop of the disable-check answers [false] exactly when one of the
    tokens is one of the four vetoing forms. *)
Lemma hw_check_codec_loop_tokens (fuel : nat) :
  forall buf name hw_name,
    (String.length buf + 2 <= fuel)%nat ->
    hw_check_codec_loop fuel (mk_stream buf false false) name hw_name
    = Some (negb (existsb (vetoes name hw_name) (comma_tokens buf))).
Proof.
  induction fuel as [|fuel IH]; intros buf name hw_name Hfuel; [lia|].
  cbn [hw_check_codec_loop good eofbit failbit negb andb].
  unfold getline. cbn [good eofbit failbit negb andb rdbuf].
  pose proof (extract_until_comma buf) as Hx.
  destruct (extract_until comma buf) as [tok [rest|]].
  - destruct Hx as [-> Hlen]. cbn [existsb]. fold (vetoes name hw_name tok).
    destruct (vetoes name hw_name tok); [done|]. rewrite IH by lia. done.
  - rewrite Hx. cbn [existsb]. fold (vetoes name hw_name tok).
    destruct (vetoes name hw_name tok); [done|].
    destruct fuel as [|fuel']; [simpl in Hfuel; lia|]. done.
Qed.

Lemma vetoes_spec (codec_name hw_name tok : string) :
  vetoes codec_name hw_name tok = true <->
  tok = codec_name \/ tok = hw_name \/ tok = codec_name ++ hw_name \/ tok = "hw".
Proof.
  unfold vetoes. rewrite !orb_true_iff, !String.eqb_eq. tauto.
Qed.

(** ** Configuration resolver and candidate iterator *)

Lemma configuration_fragment (target : Target) (va_type : VideoAccelerationType)
    (isEncoder : bool) (dict : option AVDictionary) :
  (if isEncoder then getEncoderConfiguration target va_type dict
   else getDecoderConfiguration target va_type dict)
  = fragment_of target va_type isEncoder dict.
Proof.
  unfold fragment_of, override_key, getEncoderConfiguration, getDecoderConfiguration.
  destruct isEncoder; reflexivity.
Qed.

Lemma accel_list_of_fragment (target : Target) (va_type : VideoAccelerationType)
    (isEncoder : bool) (dict : option AVDictionary) :
  va_type <> VIDEO_ACCELERATION_NONE ->
  accel_list_of target va_type isEncoder dict
  = let frag := fragment_of target va_type isEncoder dict in
    if decide (va_type = VIDEO_ACCELERATION_ANY)
    then (if empty frag then "" else frag ++ ",")
    else frag.
Proof.
  intros Hnone. unfold accel_list_of, updateAccelList_.
  rewrite configuration_fragment.
  destruct (decide (va_type <> VIDEO_ACCELERATION_NONE)); [|done].
  cbn zeta.
  destruct (empty (fragment_of target va_type isEncoder dict)) eqn:He; cbn [snd empty negb].
  - apply empty_true in He. rewrite He. by destruct (decide _).
  - rewrite He. by destruct (decide _).
Qed.

Lemma empty_app_comma (s : string) : empty (s ++ ",") = false.
Proof. by destruct s. Qed.

(** C1, as amended: for a preference other than None the candidate list is
    the override taken verbatim when the dictionary has the role's key and
    the platform default otherwise; for Any exactly one trailing empty
    entry (a comma) is appended when that list is not empty, and an empty
    list is left empty, which the iterator reads as the one empty entry, so
    that the candidates read for Any are always the fragment's followed by
    exactly one empty entry; off Windows the decoder list for Any without
    overrides is "vaapi.iHD,". *)
Theorem accel_list_honours_configuration
    (target : Target) (va_type : VideoAccelerationType) (isEncoder : bool)
    (dict : option AVDictionary) :
  va_type <> VIDEO_ACCELERATION_NONE ->
  let frag := fragment_of target va_type isEncoder dict in
  let it := HWAccelIterator_new target va_type isEncoder dict in
  (forall override, dict_value dict (override_key va_type isEncoder) = Some override ->
                    frag = override)
  /\ (dict_value dict (override_key va_type isEncoder) = None ->
      frag = if isEncoder then encoder_default target va_type
             else decoder_default target va_type)
  /\ (va_type <> VIDEO_ACCELERATION_ANY ->
      accel_list_of target va_type isEncoder dict = frag
      /\ entries it = Some (fragment_entries frag))
  /\ (va_type = VIDEO_ACCELERATION_ANY ->
      accel_list_of target va_type isEncoder dict = (if empty frag then "" else frag ++ ",")
      /\ entries it = Some (fragment_entries frag ++ [""])%list)
  /\ accel_list_of NotWin32 VIDEO_ACCELERATION_ANY false None = "vaapi.iHD,".
Proof.
  intros Hnone frag it.
  assert (Hlist := accel_list_of_fragment target va_type isEncoder dict Hnone).
  cbn zeta in Hlist. fold frag in Hlist.
  split; [|split; [|split; [|split]]].
  - intros override Hov. unfold frag, fragment_of. by rewrite Hov.
  - intros Hov. unfold frag, fragment_of. by rewrite Hov.
  - intros Hany. destruct (decide (va_type = VIDEO_ACCELERATION_ANY)); [done|].
    split; [done|].
    unfold it, HWAccelIterator_new. rewrite Hlist.
    rewrite !bool_decide_eq_true_2 by done.
    unfold fragment_entries.
    destruct (empty frag) eqn:He; cbn [andb].
    + reflexivity.
    + apply entries_of_good_stream.
  - intros Hany. destruct (decide (va_type = VIDEO_ACCELERATION_ANY)); [|done].
    split; [done|].
    unfold it, HWAccelIterator_new. rewrite Hlist.
    rewrite (bool_decide_eq_false_2 (va_type <> VIDEO_ACCELERATION_ANY)) by tauto.
    rewrite andb_false_r. rewrite entries_of_good_stream.
    unfold fragment_entries. destruct (empty frag); [done|].
    by rewrite comma_tokens_app_comma.
  - reflexivity.
Qed.

(** C10: a specific backend whose candidate list is empty leaves the
    iterator broken: [good()] is false before anything is parsed, and the
    caller's loop reads no candidate at all. *)
Theorem empty_list_breaks_iterator
    (target : Target) (va_type : VideoAccelerationType) (isEncoder : bool)
    (dict : option AVDictionary) :
  va_type <> VIDEO_ACCELERATION_NONE ->
  va_type <> VIDEO_ACCELERATION_ANY ->
  accel_list_of target va_type isEncoder dict = "" ->
  let it := HWAccelIterator_new target va_type isEncoder dict in
  iter_good it = false /\ entries it = Some [].
Proof.
  intros Hnone Hany Hempty it. unfold it, HWAccelIterator_new.
  rewrite Hempty, !bool_decide_eq_true_2 by done.
  split; reflexivity.
Qed.

(** ** Disable-check *)

(** C7: for a hardware backend the disable-check vetoes the codec exactly
    when some comma-separated token of the list is the codec name, the
    dotted backend suffix, the two joined, or "hw"; a list with the token
    "hw" vetoes every codec on every backend. *)
Theorem hw_check_codec_vetoes_listed_tokens
    (c : AVCodec) (hw_type : AVHWDeviceType) (disabled_codecs : string) :
  hw_type <> AV_HWDEVICE_TYPE_NONE ->
  exists type_name,
    av_hwdevice_get_type_name hw_type = Some type_name
    /\ let hw_name := "." ++ type_name in
       let listed :=
         exists tok, In tok (comma_tokens disabled_codecs)
                     /\ (tok = codec_name c \/ tok = hw_name
                         \/ tok = codec_name c ++ hw_name \/ tok = "hw") in
       (listed -> hw_check_codec c hw_type (Some disabled_codecs) = Some false)
       /\ (~ listed -> hw_check_codec c hw_type (Some disabled_codecs) = Some true)
       /\ (In "hw" (comma_tokens disabled_codecs) ->
           hw_check_codec c hw_type (Some disabled_codecs) = Some false).
Proof.
  intros Hhw.
  destruct (av_hwdevice_get_type_name hw_type) as [type_name|] eqn:Hname;
    [|by destruct hw_type].
  exists type_name. split; [done|]. cbn zeta.
  assert (Hrun : hw_check_codec c hw_type (Some disabled_codecs)
                 = Some (negb (existsb (vetoes (codec_name c) ("." ++ type_name))
                                       (comma_tokens disabled_codecs)))).
  { unfold hw_check_codec. rewrite Hname.
    apply hw_check_codec_loop_tokens. lia. }
  assert (Hlisted : forall tok,
             In tok (comma_tokens disabled_codecs) ->
             tok = codec_name c \/ tok = "." ++ type_name
             \/ tok = codec_name c ++ "." ++ type_name \/ tok = "hw" ->
             hw_check_codec c hw_type (Some disabled_codecs) = Some false).
  { intros tok Hin Hform. rewrite Hrun. f_equal. apply negb_false_iff.
    apply existsb_exists. exists tok. split; [done|]. by apply vetoes_spec. }
  split; [|split].
  - intros (tok & Hin & Hform). eauto.
  - intros Hnot. rewrite Hrun. f_equal. apply negb_true_iff.
    apply not_true_is_false. intros Hex. apply Hnot.
    apply existsb_exists in Hex as (tok & Hin & Hv).
    exists tok. split; [done|]. by apply vetoes_spec.
  - intros Hin. apply (Hlisted "hw"); auto.
Qed.

(** ** Device validation *)

Lemma hw_check_device_nonempty_filter
    (h : Heap) (ctx : option AVBufferRef) (hw_type : AVHWDeviceType) (device_subname : string) :
  device_subname <> "" ->
  match ctx with Some r => is_Some (deref h r) | None => True end ->
  hw_check_device h ctx hw_type device_subname = Some false.
Proof.
  intros Hsub Hlive. destruct ctx as [r|]; [|done].
  destruct Hlive as [d Hd]. unfold hw_check_device. rewrite Hd.
  destruct (hwctx d); [|done]. cbn [negb].
  rewrite (find_empty_subject _ Hsub).
  apply empty_false in Hsub. rewrite Hsub. cbn [negb].
  rewrite (bool_decide_eq_true_2 (@None nat = None)) by done.
  destruct (decide (type d = AV_HWDEVICE_TYPE_VAAPI));
    [destruct (bool_decide (hw_type <> AV_HWDEVICE_TYPE_QSV))|]; done.
Qed.

Lemma hw_check_device_vaapi_for_qsv
    (h : Heap) (r : AVBufferRef) (d : AVHWDeviceContext) (device_subname : string) :
  deref h r = Some d ->
  type d = AV_HWDEVICE_TYPE_VAAPI ->
  hw_check_device h (Some r) AV_HWDEVICE_TYPE_QSV device_subname = Some false.
Proof.
  intros Hd Hty. unfold hw_check_device. rewrite Hd.
  destruct (hwctx d); [|done]. cbn [negb].
  rewrite decide_True by done.
  rewrite bool_decide_eq_false_2 by tauto. done.
Qed.

(** C2: with a filter that is not empty, a context whose device name (as
    any query [device_name_of] would report it) does not contain the filter
    is rejected, whatever else holds of it. *)
Theorem hw_check_device_rejects_other_names
    (device_name_of : AVHWDeviceContext -> string)
    (h : Heap) (r : AVBufferRef) (d : AVHWDeviceContext)
    (hw_type : AVHWDeviceType) (device_subname : string) :
  deref h r = Some d ->
  device_subname <> "" ->
  find (device_name_of d) device_subname = None ->
  hw_check_device h (Some r) hw_type device_subname = Some false.
Proof.
  intros Hd Hsub _. apply hw_check_device_nonempty_filter; [done|].
  rewrite Hd. by eexists.
Qed.

(** C3: with a filter that is not empty every context is rejected: the
    local [device_name] stays empty, so the filter is never found in it. *)
Theorem hw_check_device_rejects_every_filter
    (h : Heap) (ctx : option AVBufferRef) (hw_type : AVHWDeviceType) (device_subname : string) :
  device_subname <> "" ->
  match ctx with Some r => is_Some (deref h r) | None => True end ->
  hw_check_device h ctx hw_type device_subname = Some false
  /\ find "" device_subname = None.
Proof.
  intros Hsub Hlive. split.
  - by apply hw_check_device_nonempty_filter.
  - by apply find_empty_subject.
Qed.

(** ** Reference counts *)

Lemma bind_run {A B : Type} (m : M A) (f : A -> M B) (h : Heap) :
  (m ≫= f) h = match m h with Some (a, h') => f a h' | None => None end.
Proof. reflexivity. Qed.

Lemma read_run {A : Type} (f : Heap -> option A) (h : Heap) (a : A) :
  f h = Some a -> read f h = Some (a, h).
Proof. intros Hf. unfold read. by rewrite Hf. Qed.

(** The last reference to a buffer without a callback releases it. *)
Lemma av_buffer_unref_last (r : AVBufferRef) (h : Heap) (d : AVHWDeviceContext) :
  buffers h !! buffer r = Some (mk_buffer 1 d) ->
  free d = None ->
  av_buffer_unref r h
  = Some (tt, mk_heap (delete (buffer r) (buffers h)) (next_buffer h) (next_ref h)
                      (released h ++ [buffer r])).
Proof.
  intros Hb Hfree. unfold av_buffer_unref.
  cbn [av_buffer_unref_fuel]. rewrite Hb. cbn [refcount data]. rewrite Hfree.
  cbn [buffers next_buffer next_ref released]. by rewrite delete_insert_eq.
Qed.

(** One of several references only lowers the count. *)
Lemma av_buffer_unref_shared (r : AVBufferRef) (h : Heap) (n : nat) (d : AVHWDeviceContext) :
  buffers h !! buffer r = Some (mk_buffer (S (S n)) d) ->
  av_buffer_unref r h
  = Some (tt, mk_heap (<[buffer r := mk_buffer (S n) d]> (buffers h))
                      (next_buffer h) (next_ref h) (released h)).
Proof.
  intros Hb. unfold av_buffer_unref. cbn [av_buffer_unref_fuel]. by rewrite Hb.
Qed.


(** ** Device context builder *)

(** A VAAPI stage tried for the media-SDK backend is given up whatever the
    library answers, and the derivation is never consulted: the outcome is
    the same for every [derived_outcome] and every [ref_outcome]. *)
Lemma hw_create_device_loop_qsv_over_vaapi
    (device_outcome : AVHWDeviceType -> option string -> Outcome)
    (hw_device : Z) (device_subname : string) (h : Heap) :
  exists h',
    forall (derived_outcome : AVHWDeviceType -> AVHWDeviceContext -> Outcome)
           (ref_outcome : AVBufferRef -> bool),
      hw_create_device_loop device_outcome derived_outcome ref_outcome AV_HWDEVICE_TYPE_QSV
        hw_device device_subname [AV_HWDEVICE_TYPE_VAAPI] h = Some (None, h').
Proof.
  cbn [hw_create_device_loop]. unfold av_hwdevice_ctx_create.
  destruct (device_outcome AV_HWDEVICE_TYPE_VAAPI
              (device_selector AV_HWDEVICE_TYPE_VAAPI hw_device)) as [cr e pl].
  cbn [created err payload]. destruct cr; [|by eexists].
  destruct (0 <=? e) eqn:He.
  - eexists. intros derived_outcome ref_outcome.
    rewrite !bind_run. cbn [alloc_device].
    unfold mret at 1, M_ret at 1. rewrite He, bind_run.
    erewrite read_run; last first.
    { eapply hw_check_device_vaapi_for_qsv;
        [unfold deref; cbn [buffers buffer]; by rewrite lookup_insert_eq | reflexivity]. }
    cbn [negb]. rewrite bind_run.
    erewrite av_buffer_unref_last;
      [| cbn [buffers buffer]; by rewrite lookup_insert_eq | done].
    reflexivity.
  - eexists. intros derived_outcome ref_outcome.
    rewrite !bind_run. cbn [alloc_device].
    unfold mret at 1, M_ret at 1. rewrite He. reflexivity.
Qed.

(** C4: off Windows the media-SDK backend never gets a context. Its one
    child stage is VAAPI; validation rejects every VAAPI context when the
    requested type is the media-SDK one; so [hw_create_device] returns
    [NULL] for every answer of the library, every device index and every
    filter, and the derivation is never reached: the store it leaves is the
    same whatever a derivation, or the reference taken after it, would have
    answered. *)
Theorem hw_create_device_qsv_not_windows :
  child_types_of NotWin32 AV_HWDEVICE_TYPE_QSV = [AV_HWDEVICE_TYPE_VAAPI]
  /\ (forall (h : Heap) (r : AVBufferRef) (d : AVHWDeviceContext) (device_subname : string),
        deref h r = Some d ->
        type d = AV_HWDEVICE_TYPE_VAAPI ->
        hw_check_device h (Some r) AV_HWDEVICE_TYPE_QSV device_subname = Some false)
  /\ (forall (device_outcome : AVHWDeviceType -> option string -> Outcome)
             (hw_device : Z) (device_subname : string) (use_opencl : bool) (h : Heap),
        exists h',
          forall (derived_outcome : AVHWDeviceType -> AVHWDeviceContext -> Outcome)
                 (ref_outcome : AVBufferRef -> bool),
            hw_create_device NotWin32 device_outcome derived_outcome ref_outcome
              AV_HWDEVICE_TYPE_QSV hw_device device_subname use_opencl h
            = Some (None, h')).
Proof.
  split; [reflexivity|]. split; [apply hw_check_device_vaapi_for_qsv|].
  intros device_outcome hw_device device_subname use_opencl h.
  destruct (hw_create_device_loop_qsv_over_vaapi device_outcome hw_device device_subname h)
    as [h' Hloop].
  exists h'. intros derived_outcome ref_outcome. unfold hw_create_device.
  rewrite decide_False by done. apply Hloop.
Qed.



Section DerivedContextFacts.

Variable target : Target.
Variable device_outcome : AVHWDeviceType -> option string -> Outcome.
Variable derived_outcome : AVHWDeviceType -> AVHWDeviceContext -> Outcome.
Variable ref_outcome : AVBufferRef -> bool.

(** Deriving from a live context, in a store whose next buffer address is
    not the child's: what is returned and the store it leaves, case by
    case. *)
Lemma hw_create_derived_context_eq
    (hw_type : AVHWDeviceType) (ctx : AVBufferRef) (n : nat)
    (dc : AVHWDeviceContext) (h : Heap) :
  buffers h !! buffer ctx = Some (mk_buffer (S n) dc) ->
  buffer ctx <> next_buffer h ->
  hw_create_derived_context derived_outcome ref_outcome hw_type ctx h
  = let o := derived_outcome hw_type dc in
    if created o then
      if err o <? 0 then
        Some (None, mk_heap (delete (next_buffer h) (buffers h))
                            (N.succ (next_buffer h)) (N.succ (next_ref h))
                            (released h ++ [next_buffer h]))
      else if ref_outcome ctx then
        Some (Some (mk_ref (next_ref h) (next_buffer h)),
              mk_heap (<[next_buffer h :=
                           mk_buffer 1 (mk_device hw_type (payload o)
                                          (Some (mk_ref (N.succ (next_ref h)) (buffer ctx)))
                                          (Some FreeChildContext_free))]>
                         (<[buffer ctx := mk_buffer (S (S n)) dc]> (buffers h)))
                      (N.succ (next_buffer h)) (N.succ (N.succ (next_ref h)))
                      (released h))
      else
        Some (Some (mk_ref (next_ref h) (next_buffer h)),
              mk_heap (<[next_buffer h :=
                           mk_buffer 1 (mk_device hw_type (payload o) None
                                          (Some FreeChildContext_free))]>
                         (buffers h))
                      (N.succ (next_buffer h)) (N.succ (next_ref h))
                      (released h))
    else Some (None, h).
Proof.
  intros Hctx Hfresh. unfold hw_create_derived_context.
  rewrite bind_run. unfold av_hwdevice_ctx_create_derived.
  rewrite bind_run. erewrite read_run by (unfold deref; by rewrite Hctx).
  cbn [data]. cbn zeta.
  destruct (derived_outcome hw_type dc) as [cr e pl]. cbn [created err payload].
  destruct cr; [|reflexivity].
  rewrite bind_run. cbn [alloc_device]. unfold mret at 1, M_ret at 1.
  destruct (e <? 0).
  { rewrite bind_run.
    erewrite av_buffer_unref_last;
      [| cbn [buffers buffer]; by rewrite lookup_insert_eq | done].
    cbn [buffers buffer next_buffer next_ref released].
    by rewrite delete_insert_eq. }
  rewrite bind_run. unfold av_buffer_ref. cbn [buffers buffer next_ref next_buffer released].
  rewrite lookup_insert_ne by done. rewrite Hctx. cbn [refcount].
  rewrite decide_False by done.
  destruct (ref_outcome ctx); rewrite bind_run;
    unfold store_child; cbn [buffers buffer next_ref next_buffer released].
  - rewrite lookup_insert_ne by done. rewrite lookup_insert_eq.
    cbn [data set_data set_refcount refcount type hwctx]. unfold mret, M_ret.
    do 3 f_equal.
    apply map_eq. intros k. rewrite !lookup_insert.
    repeat case_decide; try congruence; reflexivity.
  - rewrite lookup_insert_eq.
    cbn [data set_data set_refcount refcount type hwctx]. unfold mret, M_ret.
    do 3 f_equal. by rewrite insert_insert_eq.
Qed.

Lemma hw_check_device_defined
    (h : Heap) (r : AVBufferRef) (d : AVHWDeviceContext)
    (hw_type : AVHWDeviceType) (device_subname : string) :
  deref h r = Some d ->
  exists ok, hw_check_device h (Some r) hw_type device_subname = Some ok.
Proof.
  intros Hd. unfold hw_check_device. rewrite Hd.
  destruct (negb (hwctx d)); by eexists.
Qed.



End DerivedContextFacts.

(** ** Frame pool builder *)

Section FramePoolFacts.

Variable avcodec_get_hw_frames_parameters :
  AVCodecContext -> AVBufferRef -> AVPixelFormat -> Z * option AVHWFramesContext.
Variable av_hwframe_ctx_alloc : AVBufferRef -> option AVHWFramesContext.
Variable av_hwdevice_get_hwframe_constraints : AVBufferRef -> option (list AVPixelFormat).
Variable av_hwframe_ctx_init : AVHWFramesContext -> Z.
Variable av_hwframe_ctx_create_derived :
  AVPixelFormat -> AVBufferRef -> AVHWFramesContext -> Z -> Z * option AVHWFramesContext.

Local Abbreviation create_frames :=
  (hw_create_frames avcodec_get_hw_frames_parameters av_hwframe_ctx_alloc
     av_hwdevice_get_hwframe_constraints av_hwframe_ctx_init
     av_hwframe_ctx_create_derived).
Local Abbreviation supplied :=
  (supplied_frames avcodec_get_hw_frames_parameters av_hwframe_ctx_alloc).
Local Abbreviation callback :=
  (hw_get_format_callback avcodec_get_hw_frames_parameters av_hwframe_ctx_alloc
     av_hwdevice_get_hwframe_constraints av_hwframe_ctx_init
     av_hwframe_ctx_create_derived).
Local Abbreviation offered :=
  (offered_loop avcodec_get_hw_frames_parameters av_hwframe_ctx_alloc
     av_hwdevice_get_hwframe_constraints av_hwframe_ctx_init
     av_hwframe_ctx_create_derived).
Local Abbreviation configs :=
  (configs_loop avcodec_get_hw_frames_parameters av_hwframe_ctx_alloc
     av_hwdevice_get_hwframe_constraints av_hwframe_ctx_init
     av_hwframe_ctx_create_derived).

Lemma fill_frames_fields (same_ctx : bool) (child_ctx : AVBufferRef)
    (w hgt : Z) (hw_format : AVPixelFormat) (frames_ctx : AVHWFramesContext) :
  let filled := fill_frames av_hwdevice_get_hwframe_constraints same_ctx child_ctx
                            w hgt hw_format frames_ctx in
  width filled = w /\ height filled = hgt
  /\ sw_format filled = (if decide (sw_format frames_ctx = AV_PIX_FMT_NONE)
                         then AV_PIX_FMT_NV12 else sw_format frames_ctx)
  /\ initial_pool_size filled = (if initial_pool_size frames_ctx =? 0
                                 then 32 else initial_pool_size frames_ctx).
Proof. repeat split. Qed.

(** C6: in every pool that is built, the descriptor the builder filled
    in (the pool itself, or for a pool derived from a child pool the
    child descriptor it points back to) has the requested width and
    height whatever the capability query or the allocation had put
    there, the NV12 software format only where none was supplied, and a
    pool size of 32 only where the supplied size was 0; and where the
    library's derivation keeps the size of its source, the returned pool
    has the requested width and height in every case. *)
Theorem hw_create_frames_defaults
    (h : Heap) (codec_ctx : option AVCodecContext) (dev : AVBufferRef)
    (w hgt : Z) (hw_format : AVPixelFormat) (pool : AVHWFramesContext) :
  create_frames h codec_ctx dev w hgt hw_format = Some (Some pool) ->
  exists (child_ctx : AVBufferRef) (before filled : AVHWFramesContext),
    frames_child_ctx h dev = Some child_ctx
    /\ supplied codec_ctx child_ctx hw_format = Some before
    /\ (if bool_decide (ref_addr child_ctx = ref_addr dev)
        then pool = filled
        else frames_user_opaque pool = Some filled)
    /\ width filled = w
    /\ height filled = hgt
    /\ sw_format filled = (if decide (sw_format before = AV_PIX_FMT_NONE)
                           then AV_PIX_FMT_NV12 else sw_format before)
    /\ initial_pool_size filled = (if initial_pool_size before =? 0
                                   then 32 else initial_pool_size before)
    /\ ((forall f r src flags d,
            snd (av_hwframe_ctx_create_derived f r src flags) = Some d ->
            width d = width src /\ height d = height src) ->
        width pool = w /\ height pool = hgt).
Proof.
  unfold hw_create_frames.
  destruct (frames_child_ctx h dev) as [child_ctx|]; [|done].
  destruct (supplied codec_ctx child_ctx hw_format) as [before|] eqn:Hsup; [|done].
  set (same_ctx := bool_decide (ref_addr child_ctx = ref_addr dev)).
  set (filled := fill_frames _ _ _ _ _ _ _).
  intros Hrun. exists child_ctx, before, filled.
  split; [done|]. split; [done|].
  destruct (fill_frames_fields same_ctx child_ctx w hgt hw_format before)
    as (Hw & Hh & Hsw & Hsize); fold filled in Hw, Hh, Hsw, Hsize.
  fold same_ctx.
  destruct (av_hwframe_ctx_init filled <? 0); [done|].
  destruct same_ctx; cbn [negb] in Hrun.
  { injection Hrun as <-. repeat split; done. }
  destruct (av_hwframe_ctx_create_derived _ _ _ _) as [res [d|]] eqn:Hder;
    destruct (res <? 0); try done.
  injection Hrun as <-.
  split; [done|]. split; [done|]. split; [done|]. split; [done|]. split; [done|].
  intros Hkeeps.
  destruct (Hkeeps _ _ _ _ d ltac:(by rewrite Hder)) as [Hdw Hdh].
  cbn [set_frames_user_opaque width height]. split; congruence.
Qed.

(** ** Format-selection callback *)

Section Callback.

Variable h : Heap.
Variable dev : AVBufferRef.








End Callback.


End FramePoolFacts.

(** ** Codec selector *)

(** C8: with no backend requested the selector returns the first codec of
    the enumeration that passes the category check, has the codec ID and
    is not experimental; no hardware filter applies and the disabled-codec
    list, present or not, plays no part. *)
Theorem hw_find_codec_software
    (codecs : list AVCodec) (old_libavutil : bool) (id : Z)
    (check_category : AVCodec -> Z) (disabled_codecs : option string)
    (hw_pix_fmt : AVPixelFormat) :
  hw_find_codec codecs old_libavutil id AV_HWDEVICE_TYPE_NONE check_category
                disabled_codecs hw_pix_fmt
  = Some (List.find (fun c => negb (check_category c =? 0)
                              && (codec_id c =? id)
                              && (Z.land (capabilities c) AV_CODEC_CAP_EXPERIMENTAL =? 0))%bool
                    codecs,
          hw_pix_fmt).
Proof.
  unfold hw_find_codec. induction codecs as [|c cs IH]; [done|].
  cbn [hw_find_codec_loop List.find].
  destruct (check_category c =? 0); cbn [negb andb]; [done|].
  destruct (codec_id c =? id); cbn [negb andb]; [|done].
  destruct (Z.land (capabilities c) AV_CODEC_CAP_EXPERIMENTAL =? 0); cbn [negb]; [|done].
  by rewrite decide_False by tauto.
Qed.

(** ** The theorems at sample inputs *)

(** C1 as the spec words it fails where the override for Any is present
    and empty: the code leaves the list empty, the spec's wording gives the
    list ",". *)
Lemma accel_list_any_empty_override :
  VIDEO_ACCELERATION_ANY <> VIDEO_ACCELERATION_NONE
  /\ dict_value empty_any_override (override_key VIDEO_ACCELERATION_ANY false) = Some ""
  /\ accel_list_of NotWin32 VIDEO_ACCELERATION_ANY false empty_any_override = ""
  /\ claimed_accel_list NotWin32 VIDEO_ACCELERATION_ANY false empty_any_override = ","
  /\ accel_list_of NotWin32 VIDEO_ACCELERATION_ANY false empty_any_override
     <> claimed_accel_list NotWin32 VIDEO_ACCELERATION_ANY false empty_any_override.
Proof. repeat split; discriminate. Qed.

Lemma accel_list_honours_configuration_witness :
  VIDEO_ACCELERATION_ANY <> VIDEO_ACCELERATION_NONE
  /\ entries (HWAccelIterator_new NotWin32 VIDEO_ACCELERATION_ANY false None)
     = Some ["vaapi.iHD"; ""].
Proof.
  split; [discriminate|].
  destruct (accel_list_honours_configuration NotWin32 VIDEO_ACCELERATION_ANY false None)
    as (_ & _ & _ & Hany & _); [discriminate|].
  destruct (Hany eq_refl) as [_ Hentries]. rewrite Hentries. reflexivity.
Defined.

Lemma empty_list_breaks_iterator_witness :
  VIDEO_ACCELERATION_D3D11 <> VIDEO_ACCELERATION_NONE
  /\ VIDEO_ACCELERATION_D3D11 <> VIDEO_ACCELERATION_ANY
  /\ accel_list_of NotWin32 VIDEO_ACCELERATION_D3D11 false None = ""
  /\ iter_good (HWAccelIterator_new NotWin32 VIDEO_ACCELERATION_D3D11 false None) = false.
Proof.
  split; [discriminate|]. split; [discriminate|]. split; [reflexivity|].
  apply (empty_list_breaks_iterator NotWin32 VIDEO_ACCELERATION_D3D11 false None);
    [discriminate | discriminate | reflexivity].
Defined.

Lemma hw_check_codec_vetoes_listed_tokens_witness :
  AV_HWDEVICE_TYPE_VAAPI <> AV_HWDEVICE_TYPE_NONE
  /\ hw_check_codec sample_codec AV_HWDEVICE_TYPE_VAAPI (Some "av1.vaapi,hw") = Some false.
Proof.
  split; [discriminate|].
  destruct (hw_check_codec_vetoes_listed_tokens sample_codec AV_HWDEVICE_TYPE_VAAPI
              "av1.vaapi,hw") as (type_name & _ & _ & _ & Hhw); [discriminate|].
  apply Hhw. simpl. auto.
Defined.

Lemma hw_check_device_rejects_other_names_witness :
  deref sample_heap sample_device
  = Some (mk_device AV_HWDEVICE_TYPE_VAAPI true None None)
  /\ "CustomGPU" <> ""
  /\ find "Intel iHD driver" "CustomGPU" = None
  /\ hw_check_device sample_heap (Some sample_device) AV_HWDEVICE_TYPE_VAAPI "CustomGPU"
     = Some false.
Proof.
  split; [reflexivity|]. split; [discriminate|]. split; [reflexivity|].
  apply (hw_check_device_rejects_other_names (fun _ => "Intel iHD driver")
           sample_heap sample_device (mk_device AV_HWDEVICE_TYPE_VAAPI true None None));
    [reflexivity | discriminate | reflexivity].
Defined.

Lemma hw_check_device_rejects_every_filter_witness :
  "iHD" <> ""
  /\ is_Some (deref sample_heap sample_device)
  /\ hw_check_device sample_heap (Some sample_device) AV_HWDEVICE_TYPE_VAAPI "iHD"
     = Some false.
Proof.
  split; [discriminate|]. split; [by eexists|].
  apply (hw_check_device_rejects_every_filter sample_heap (Some sample_device));
    [discriminate | by eexists].
Defined.

Lemma hw_create_device_qsv_not_windows_witness :
  deref sample_heap sample_device
  = Some (mk_device AV_HWDEVICE_TYPE_VAAPI true None None)
  /\ hw_check_device sample_heap (Some sample_device) AV_HWDEVICE_TYPE_QSV "" = Some false
  /\ exists h',
       forall derived_outcome ref_outcome,
         hw_create_device NotWin32 always_created derived_outcome ref_outcome
           AV_HWDEVICE_TYPE_QSV 0 "" false empty_heap = Some (None, h').
Proof.
  destruct hw_create_device_qsv_not_windows as (_ & Hcheck & Hcreate).
  split; [reflexivity|]. split.
  - apply (Hcheck sample_heap sample_device
             (mk_device AV_HWDEVICE_TYPE_VAAPI true None None)); reflexivity.
  - apply (Hcreate always_created 0 "" false empty_heap).
Defined.



Lemma hw_create_frames_defaults_witness :
  (hw_create_frames no_parameters alloc_blank no_constraints init_ok derive_copy
     sample_heap None sample_device 640 480 AV_PIX_FMT_VAAPI_VLD = Some (Some sample_pool)
   /\ exists child_ctx before filled,
        frames_child_ctx sample_heap sample_device = Some child_ctx
        /\ supplied_frames no_parameters alloc_blank None child_ctx AV_PIX_FMT_VAAPI_VLD
           = Some before
        /\ (if bool_decide (ref_addr child_ctx = ref_addr sample_device)
            then sample_pool = filled
            else frames_user_opaque sample_pool = Some filled)
        /\ width filled = 640
        /\ height filled = 480
        /\ sw_format filled = (if decide (sw_format before = AV_PIX_FMT_NONE)
                               then AV_PIX_FMT_NV12 else sw_format before)
        /\ initial_pool_size filled = (if initial_pool_size before =? 0
                                       then 32 else initial_pool_size before)
        /\ ((forall f r src flags d,
                snd (derive_copy f r src flags) = Some d ->
                width d = width src /\ height d = height src) ->
            width sample_pool = 640 /\ height sample_pool = 480))
  /\ (hw_create_frames no_parameters alloc_blank no_constraints init_ok derive_copy
        sample_derived_heap None sample_parent 640 480 (AV_PIX_FMT_other 116)
      = Some (Some sample_derived_pool)
      /\ exists child_ctx before filled,
           frames_child_ctx sample_derived_heap sample_parent = Some child_ctx
           /\ supplied_frames no_parameters alloc_blank None child_ctx (AV_PIX_FMT_other 116)
              = Some before
           /\ (if bool_decide (ref_addr child_ctx = ref_addr sample_parent)
               then sample_derived_pool = filled
               else frames_user_opaque sample_derived_pool = Some filled)
           /\ width filled = 640
           /\ height filled = 480
           /\ sw_format filled = (if decide (sw_format before = AV_PIX_FMT_NONE)
                                  then AV_PIX_FMT_NV12 else sw_format before)
           /\ initial_pool_size filled = (if initial_pool_size before =? 0
                                          then 32 else initial_pool_size before)
           /\ ((forall f r src flags d,
                   snd (derive_copy f r src flags) = Some d ->
                   width d = width src /\ height d = height src) ->
               width sample_derived_pool = 640 /\ height sample_derived_pool = 480)).
Proof.
  split; (split; [vm_compute; reflexivity|]).
  - apply (hw_create_frames_defaults no_parameters alloc_blank no_constraints init_ok
             derive_copy sample_heap None sample_device 640 480 AV_PIX_FMT_VAAPI_VLD).
    vm_compute. reflexivity.
  - apply (hw_create_frames_defaults no_parameters alloc_blank no_constraints init_ok
             derive_copy sample_derived_heap None sample_parent 640 480
             (AV_PIX_FMT_other 116)).
    vm_compute. reflexivity.
Defined.


(** * Further properties *)

(** ** Candidate iterator *)

Lemma substring_whole (s : string) : String.substring 0 (String.length s) s = s.
Proof. induction s as [|b s IH]; [done|]. cbn. by rewrite IH. Qed.

Lemma find_char_split (c : ascii) (s : string) :
  forall i, find_char c s = Some i ->
    s = String.substring 0 i s
        ++ String c (String.substring (S i) (String.length s - S i) s)
    /\ find_char c (String.substring 0 i s) = None.
Proof.
  induction s as [|a s IH]; intros i; cbn [find_char]; [done|].
  destruct (Ascii.eqb_spec a c) as [->|Hne].
  - intros [= <-]. cbn [String.substring String.length].
    replace (S (String.length s) - 1)%nat with (String.length s) by lia.
    rewrite substring_whole. done.
  - destruct (find_char c s) as [j|] eqn:Hj; [|done].
    intros [= <-]. destruct (IH j eq_refl) as [Heq Hnone].
    cbn [String.substring String.length]. split.
    + etransitivity; [apply (f_equal (String a) Heq) | reflexivity].
    + cbn [find_char]. destruct (Ascii.eqb_spec a c); [done|]. by rewrite Hnone.
Qed.

(** X1: [parse_next] splits the token it reads at its first dot: the
    backend name has no dot, a token without a dot is the backend name
    whole with an empty device filter, a token with one is the name, the
    dot and the filter put together again, and the backend type is the
    one the library finds under that name. *)
Theorem parse_next_splits_at_first_dot (it : HWAccelIterator) :
  let it' := parse_next it in
  let tok := hw_type_device_string_ it' in
  hw_type_ it' = av_hwdevice_find_type_by_name (hw_type_string_ it')
  /\ find_char dot (hw_type_string_ it') = None
  /\ (find_char dot tok = None ->
      hw_type_string_ it' = tok /\ device_subname_ it' = "")
  /\ (find_char dot tok <> None ->
      tok = hw_type_string_ it' ++ "." ++ device_subname_ it').
Proof.
  unfold parse_next.
  destruct (getline (s_stream_ it) (hw_type_device_string_ it) comma) as [s tok].
  destruct (find_char dot tok) as [i|] eqn:Hdot;
    cbn [hw_type_ hw_type_string_ device_subname_ hw_type_device_string_].
  - destruct (find_char_split dot tok i Hdot) as [Heq Hnone].
    rewrite Hdot. split; [done|]. split; [done|]. split; [done|].
    intros _. exact Heq.
  - rewrite Hdot. split; [done|]. split; [done|]. split; done.
Qed.

(** X2: on an iterator that is no longer good, [parse_next] reads nothing
    new: the iterator stays exhausted, the last token is kept, and parsing
    again changes nothing more. *)
Theorem parse_next_exhausted (it : HWAccelIterator) :
  iter_good it = false ->
  let it' := parse_next it in
  iter_good it' = false
  /\ hw_type_device_string_ it' = hw_type_device_string_ it
  /\ parse_next it' = it'.
Proof.
  intros Hgood. unfold iter_good in Hgood.
  unfold parse_next at 1 2, getline. rewrite Hgood.
  destruct (find_char dot (hw_type_device_string_ it)) as [i|] eqn:Hdot;
    cbn [hw_type_device_string_].
  - repeat split.
    + unfold iter_good, good. cbn. apply andb_false_r.
    + unfold parse_next, getline, good.
      cbn [s_stream_ hw_type_device_string_ eofbit failbit rdbuf negb disabled_codecs_].
      rewrite andb_false_r, Hdot. reflexivity.
  - repeat split.
    + unfold iter_good, good. cbn. apply andb_false_r.
    + unfold parse_next, getline, good.
      cbn [s_stream_ hw_type_device_string_ eofbit failbit rdbuf negb disabled_codecs_].
      rewrite andb_false_r, Hdot. reflexivity.
Qed.

Lemma extract_until_no_comma (tok : string) :
  has_comma tok = false ->
  forall rest, extract_until comma (tok ++ String comma rest) = (tok, Some rest)
               /\ extract_until comma tok = (tok, None).
Proof.
  unfold has_comma. induction tok as [|a tok IH]; intros Hno rest.
  - split; reflexivity.
  - cbn [find_char] in Hno.
    change (String a tok ++ String comma rest) with (String a (tok ++ String comma rest)).
    cbn [extract_until].
    destruct (Ascii.eqb a comma); [done|].
    destruct (find_char comma tok); [done|].
    destruct (IH eq_refl rest) as [-> ->]. done.
Qed.

(** The tokens of a written-out list are the entries it was written from. *)
Lemma comma_tokens_join (toks : list string) :
  toks <> [] ->
  Forall (fun tok => has_comma tok = false) toks ->
  comma_tokens (join_commas toks) = toks.
Proof.
  intros Hne Hall. induction Hall as [|tok rest Htok Hrest IH]; [done|].
  destruct rest as [|tok' rest'].
  - cbn [join_commas].
    pose proof (extract_until_comma tok) as Hx.
    destruct (extract_until_no_comma tok Htok "") as [_ Hu]. by rewrite Hu in Hx.
  - change (join_commas (tok :: tok' :: rest'))
      with (tok ++ String comma (join_commas (tok' :: rest'))).
    pose proof (extract_until_comma (tok ++ String comma (join_commas (tok' :: rest')))) as Hx.
    destruct (extract_until_no_comma tok Htok (join_commas (tok' :: rest'))) as [Hu _].
    rewrite Hu in Hx. destruct Hx as [-> _]. by rewrite IH.
Qed.

(** X3: an override that lists candidates with commas between them is
    read back by the iterator of a specific backend as exactly those
    candidates, in their order, duplicates and empty entries included. *)
Theorem override_entries_round_trip
    (target : Target) (va_type : VideoAccelerationType) (isEncoder : bool)
    (dict : option AVDictionary) (toks : list string) :
  va_type <> VIDEO_ACCELERATION_NONE ->
  va_type <> VIDEO_ACCELERATION_ANY ->
  Forall (fun tok => has_comma tok = false) toks ->
  join_commas toks <> "" ->
  dict_value dict (override_key va_type isEncoder) = Some (join_commas toks) ->
  entries (HWAccelIterator_new target va_type isEncoder dict) = Some toks.
Proof.
  intros Hnone Hany Hall Hstr Hov.
  assert (Hne : toks <> []) by (intros ->; by apply Hstr).
  pose proof (accel_list_of_fragment target va_type isEncoder dict Hnone) as Hlist.
  cbn zeta in Hlist. rewrite decide_False in Hlist by done.
  unfold fragment_of in Hlist. rewrite Hov in Hlist.
  unfold HWAccelIterator_new. rewrite Hlist.
  apply empty_false in Hstr. rewrite Hstr. cbn [andb].
  rewrite entries_of_good_stream. by rewrite comma_tokens_join.
Qed.

(** X4: with the preference None the dictionary is never consulted: the
    disabled-codec list is empty and the iterator, built on the empty
    list, is good once and yields one empty candidate of no backend; for
    that candidate the device builder returns [NULL] without asking the
    library and without touching the store. *)
Theorem none_yields_one_empty_candidate
    (target : Target) (isEncoder : bool) (dict : option AVDictionary) :
  let it := HWAccelIterator_new target VIDEO_ACCELERATION_NONE isEncoder dict in
  accel_list_of target VIDEO_ACCELERATION_NONE isEncoder dict = ""
  /\ disabled_codecs_ it = ""
  /\ iter_good it = true
  /\ candidates it = Some [(AV_HWDEVICE_TYPE_NONE, "")]
  /\ iter_good (parse_next it) = false
  /\ forall device_outcome derived_outcome ref_outcome hw_device use_opencl h,
       hw_create_device target device_outcome derived_outcome ref_outcome
         (hw_type_ (parse_next it)) hw_device (device_subname_ (parse_next it))
         use_opencl h = Some (None, h).
Proof.
  cbn zeta. split; [reflexivity|]. split; [reflexivity|]. split; [reflexivity|].
  split; [reflexivity|]. split; [reflexivity|].
  intros device_outcome derived_outcome ref_outcome hw_device use_opencl h. reflexivity.
Qed.

(** X5: where the dictionary does not override it, the list of a
    preference that names one backend only ever yields candidates of that
    backend: every built-in default, on either platform and for either
    role, parses to a device type that [hw_type_to_va_type] maps back to
    the preference. *)
Theorem defaults_name_their_backend
    (target : Target) (va_type : VideoAccelerationType) (isEncoder : bool)
    (dict : option AVDictionary) :
  named_backend va_type ->
  dict_value dict (override_key va_type isEncoder) = None ->
  exists cands,
    candidates (HWAccelIterator_new target va_type isEncoder dict) = Some cands
    /\ Forall (fun cand => hw_type_to_va_type (fst cand) = va_type) cands.
Proof.
  intros Hnamed Hov.
  assert (Hnone : va_type <> VIDEO_ACCELERATION_NONE)
    by (destruct Hnamed as [->|[->| ->]]; done).
  pose proof (accel_list_of_fragment target va_type isEncoder dict Hnone) as Hlist.
  cbn zeta in Hlist. unfold fragment_of in Hlist. rewrite Hov in Hlist.
  unfold HWAccelIterator_new. rewrite Hlist. clear Hlist Hov.
  destruct Hnamed as [->|[->| ->]]; destruct target, isEncoder;
    eexists; (split; [vm_compute; reflexivity | repeat constructor]).
Qed.

(** ** Device selector *)

Lemma decimal_inj (a b : Z) : decimal a = decimal b -> a = b.
Proof.
  unfold decimal. intros Heq. apply DecimalZ.to_int_inj.
  assert (Hpos : forall z, Z.to_int z <> Decimal.Pos Decimal.Nil
                           /\ Z.to_int z <> Decimal.Neg Decimal.Nil).
  { intros [|p|p]; cbn; split; try discriminate;
      intros [= H]; by apply DecimalPos.Unsigned.to_uint_nonnil in H. }
  destruct (Hpos a) as [Ha1 Ha2], (Hpos b) as [Hb1 Hb2].
  pose proof (NilZero.isi _ Ha1 Ha2) as Hia.
  pose proof (NilZero.isi _ Hb1 Hb2) as Hib.
  rewrite Heq in Hia. congruence.
Qed.

(** X6: the device selector is [NULL] exactly for an index outside
    [0, 100000), and within that range two indices give one selector only
    if they are the same index: no two device ordinals address the same
    render node or adapter. *)
Theorem device_selector_distinguishes_indices
    (child_type : AVHWDeviceType) (i j : Z) :
  (device_selector child_type i = None <-> ~ (0 <= i < 100000))
  /\ (0 <= i < 100000 ->
      device_selector child_type i = device_selector child_type j ->
      i = j).
Proof.
  unfold device_selector. split.
  - destruct (0 <=? i) eqn:H0; destruct (i <? 100000) eqn:H1; cbn [andb];
      try destruct (decide _); split; try done; try lia.
  - intros Hi.
    replace (0 <=? i) with true by lia. replace (i <? 100000) with true by lia.
    cbn [andb].
    destruct ((0 <=? j) && (j <? 100000))%bool; [|by destruct (decide _)].
    destruct (decide _); intros [= Heq].
    + apply decimal_inj in Heq. lia.
    + by apply decimal_inj.
Qed.

(** ** Derived contexts *)



(** ** Device context builder, every backend *)

Lemma hw_check_device_accepts_no_filter
    (h : Heap) (r : AVBufferRef) (hw_type : AVHWDeviceType) (device_subname : string) :
  hw_check_device h (Some r) hw_type device_subname = Some true ->
  device_subname = "".
Proof.
  intros Hok. destruct (empty device_subname) eqn:He; [by apply empty_true|].
  apply empty_false in He.
  destruct (deref h r) as [d|] eqn:Hd.
  - rewrite (hw_check_device_nonempty_filter h (Some r) hw_type device_subname He) in Hok;
      [done | rewrite Hd; by eexists].
  - unfold hw_check_device in Hok. by rewrite Hd in Hok.
Qed.

Lemma heap_fresh_alloc (h : Heap) (b : AVBuffer) (rel : list N) (nr : N) :
  heap_fresh h ->
  heap_fresh (mk_heap (<[next_buffer h := b]> (buffers h)) (N.succ (next_buffer h)) nr rel).
Proof.
  intros Hfresh k Hk. cbn [buffers next_buffer] in *.
  rewrite lookup_insert_ne by lia. apply Hfresh. lia.
Qed.

Lemma heap_fresh_same_buffers (h : Heap) (m : gmap N AVBuffer) (nb nr : N) (rel : list N) :
  heap_fresh h -> m = buffers h -> (next_buffer h <= nb)%N ->
  heap_fresh (mk_heap m nb nr rel).
Proof.
  intros Hfresh -> Hle k Hk. cbn [buffers next_buffer] in *. apply Hfresh. lia.
Qed.

Section DeviceBuilderLoop.

Variable device_outcome : AVHWDeviceType -> option string -> Outcome.
Variable derived_outcome : AVHWDeviceType -> AVHWDeviceContext -> Outcome.
Variable ref_outcome : AVBufferRef -> bool.
Variable hw_type : AVHWDeviceType.
Variable hw_device : Z.
Variable device_subname : string.

(** What the loop over the stages guarantees on a fresh store. *)
Lemma hw_create_device_loop_post (child_types : list AVHWDeviceType) :
  forall h : Heap,
    heap_fresh h ->
    exists r h',
      hw_create_device_loop device_outcome derived_outcome ref_outcome hw_type hw_device
        device_subname child_types h = Some (r, h')
      /\ match r with
         | None => no_context_on_error device_outcome -> buffers h' = buffers h
         | Some ctx =>
             exists d, buffers h' !! buffer ctx = Some (mk_buffer 1 d)
                       /\ type d = hw_type
                       /\ buffers h !! buffer ctx = None
                       /\ device_subname = ""
         end.
Proof.
  induction child_types as [|child_type rest IH]; intros h Hfresh.
  { exists None, h. by split. }
  assert (Hnb : buffers h !! next_buffer h = None) by (apply Hfresh; lia).
  cbn [hw_create_device_loop]. rewrite bind_run. unfold av_hwdevice_ctx_create.
  destruct (device_outcome child_type (device_selector child_type hw_device))
    as [cr e pl] eqn:Hout.
  cbn [created err payload]. destruct cr; [|by apply IH].
  rewrite bind_run. cbn [alloc_device]. unfold mret at 1, M_ret at 1.
  set (ctx := mk_ref (next_ref h) (next_buffer h)).
  set (dc := mk_device child_type pl None None).
  set (ha := mk_heap _ _ _ _).
  assert (Hfa : heap_fresh ha) by by apply heap_fresh_alloc.
  assert (Hctx : buffers ha !! buffer ctx = Some (mk_buffer 1 dc)).
  { subst ha ctx. cbn [buffers buffer]. by rewrite lookup_insert_eq. }
  assert (Hne : buffer ctx <> next_buffer ha).
  { subst ha ctx. cbn [buffer next_buffer]. lia. }
  destruct (0 <=? e) eqn:He.
  2:{ destruct (IH ha Hfa) as (r & h' & Hrun & Hpost).
      exists r, h'. split; [done|]. destruct r as [c|].
      - destruct Hpost as (d & Hd & Hty & Hnew & Hsub). exists d.
        split; [done|]. split; [done|]. split; [|done].
        subst ha. cbn [buffers] in Hnew.
        apply lookup_insert_None in Hnew. tauto.
      - intros Hnoerr. specialize (Hnoerr child_type (device_selector child_type hw_device)).
        rewrite Hout in Hnoerr. cbn [created err] in Hnoerr.
        specialize (Hnoerr eq_refl). lia. }
  assert (Hderef : deref ha ctx = Some dc) by (unfold deref; by rewrite Hctx).
  destruct (hw_check_device_defined ha ctx dc hw_type device_subname Hderef) as [ok Hok].
  rewrite bind_run. erewrite read_run by exact Hok.
  assert (Hgone : delete (buffer ctx) (buffers ha) = buffers h).
  { subst ha ctx. cbn [buffers buffer]. by apply delete_insert_id. }
  destruct ok; cbn [negb].
  2:{ rewrite bind_run. erewrite av_buffer_unref_last by done.
      rewrite Hgone.
      match goal with
      | |- context [hw_create_device_loop _ _ _ _ _ _ _ ?hr] =>
          destruct (IH hr) as (r & h' & Hrun & Hpost);
            [eapply heap_fresh_same_buffers; [exact Hfresh | done | cbn; lia]|]
      end.
      exists r, h'. by split. }
  apply hw_check_device_accepts_no_filter in Hok.
  destruct (decide (hw_type <> child_type)) as [Hty|Hty].
  2:{ exists (Some ctx), ha. split; [done|]. exists dc.
      split; [done|]. split; [|done]. cbn. by destruct (decide (hw_type = child_type)). }
  rewrite bind_run.
  rewrite (hw_create_derived_context_eq derived_outcome ref_outcome hw_type ctx O dc ha
             Hctx Hne).
  cbn zeta. destruct (derived_outcome hw_type dc) as [cr2 e2 pl2].
  cbn [created err payload]. destruct cr2.
  2:{ rewrite bind_run. erewrite av_buffer_unref_last by done.
      exists None. eexists. split; [done|]. intros _. exact Hgone. }
  destruct (e2 <? 0).
  { rewrite bind_run. erewrite (av_buffer_unref_last ctx _ dc); [| |done].
    2:{ cbn [buffers]. rewrite lookup_delete_ne by done. exact Hctx. }
    exists None. eexists. split; [done|]. intros _. cbn [buffers].
    rewrite delete_delete, Hgone. apply delete_id. apply Hfresh.
    subst ha. cbn [next_buffer]. lia. }
  destruct (ref_outcome ctx); rewrite bind_run.
  - erewrite (av_buffer_unref_shared ctx _ O dc); last first.
    { cbn [buffers]. rewrite lookup_insert_ne by done. by rewrite lookup_insert_eq. }
    eexists (Some _), _. split; [done|]. cbn [buffer buffers].
    eexists. split; [|split; [|split]]; try done.
    + rewrite lookup_insert_ne by done. by rewrite lookup_insert_eq.
    + done.
    + apply Hfresh. subst ha. cbn [next_buffer]. lia.
  - erewrite (av_buffer_unref_last ctx _ dc); [| |done].
    2:{ cbn [buffers]. rewrite lookup_insert_ne by done. exact Hctx. }
    eexists (Some _), _. split; [done|]. cbn [buffer buffers].
    eexists. split; [|split; [|split]]; try done.
    + rewrite lookup_delete_ne by done. by rewrite lookup_insert_eq.
    + done.
    + apply Hfresh. subst ha. cbn [next_buffer]. lia.
Qed.

End DeviceBuilderLoop.

Section DeviceBuilderEveryBackend.

Variable target : Target.
Variable device_outcome : AVHWDeviceType -> option string -> Outcome.
Variable derived_outcome : AVHWDeviceType -> AVHWDeviceContext -> Outcome.
Variable ref_outcome : AVBufferRef -> bool.

Local Abbreviation create_device :=
  (hw_create_device target device_outcome derived_outcome ref_outcome).

(** X8: on a fresh store [hw_create_device] is defined for every backend,
    index, filter and answer of the library: it never follows or releases
    a reference to a released buffer; and when it returns [NULL], with a
    library that hands back no context together with an error, every
    context it created on the way has been released: the store holds the
    buffers it held before. *)
Theorem hw_create_device_defined_and_leak_free
    (hw_type : AVHWDeviceType) (hw_device : Z) (device_subname : string)
    (use_opencl : bool) (h : Heap) :
  heap_fresh h ->
  exists r h',
    create_device hw_type hw_device device_subname use_opencl h = Some (r, h')
    /\ (r = None -> no_context_on_error device_outcome -> buffers h' = buffers h).
Proof.
  intros Hfresh. unfold hw_create_device.
  destruct (decide (AV_HWDEVICE_TYPE_NONE = hw_type)); [by exists None, h|].
  destruct (hw_create_device_loop_post device_outcome derived_outcome ref_outcome
              hw_type hw_device
              device_subname (child_types_of target hw_type) h Hfresh)
    as (r & h' & Hrun & Hpost).
  exists r, h'. split; [done|]. by intros ->.
Qed.

(** X9: a context [hw_create_device] returns is of the requested type, is
    a buffer that was not in the store before, and is held by exactly one
    reference, the caller's; and it is only ever returned for an empty
    device filter. *)
Theorem hw_create_device_returns_owned_context
    (hw_type : AVHWDeviceType) (hw_device : Z) (device_subname : string)
    (use_opencl : bool) (h : Heap) (ctx : AVBufferRef) (h' : Heap) :
  heap_fresh h ->
  create_device hw_type hw_device device_subname use_opencl h = Some (Some ctx, h') ->
  hw_type <> AV_HWDEVICE_TYPE_NONE
  /\ device_subname = ""
  /\ buffers h !! buffer ctx = None
  /\ exists d, buffers h' !! buffer ctx = Some (mk_buffer 1 d) /\ type d = hw_type.
Proof.
  intros Hfresh. unfold hw_create_device.
  destruct (decide (AV_HWDEVICE_TYPE_NONE = hw_type)); [intros [=]|].
  destruct (hw_create_device_loop_post device_outcome derived_outcome ref_outcome
              hw_type hw_device
              device_subname (child_types_of target hw_type) h Hfresh)
    as (r & h1 & Hrun & Hpost).
  rewrite Hrun. intros [= -> ->].
  destruct Hpost as (d & Hd & Hty & Hnew & Hsub).
  split; [done|]. split; [done|]. split; [done|]. by exists d.
Qed.

(** X10: with a device filter that is not empty [hw_create_device] returns
    [NULL] for every backend, every index and every answer of the library:
    no device name is ever read, so no filter is ever matched. *)
Theorem hw_create_device_filter_never_matches
    (hw_type : AVHWDeviceType) (hw_device : Z) (device_subname : string)
    (use_opencl : bool) (h : Heap) :
  heap_fresh h ->
  device_subname <> "" ->
  exists h', create_device hw_type hw_device device_subname use_opencl h = Some (None, h').
Proof.
  intros Hfresh Hsub. unfold hw_create_device.
  destruct (decide (AV_HWDEVICE_TYPE_NONE = hw_type)); [by exists h|].
  destruct (hw_create_device_loop_post device_outcome derived_outcome ref_outcome
              hw_type hw_device
              device_subname (child_types_of target hw_type) h Hfresh)
    as ([c|] & h' & Hrun & Hpost); [|by exists h'].
  destruct Hpost as (d & _ & _ & _ & Hempty). done.
Qed.

(** X11: for a backend with a single stage (any but the media-SDK one) the
    builder asks the library once, for that backend and the selector of the
    index, and returns the new context exactly when the library created
    one without error, the context has a hardware payload and the filter
    is empty; the store then holds that one buffer more. *)
Theorem hw_create_device_single_stage
    (hw_type : AVHWDeviceType) (hw_device : Z) (device_subname : string)
    (use_opencl : bool) (h : Heap) :
  hw_type <> AV_HWDEVICE_TYPE_NONE ->
  hw_type <> AV_HWDEVICE_TYPE_QSV ->
  let o := device_outcome hw_type (device_selector hw_type hw_device) in
  let accepted := (created o && (0 <=? err o) && payload o && empty device_subname)%bool in
  exists h',
    create_device hw_type hw_device device_subname use_opencl h
    = Some (if accepted then Some (mk_ref (next_ref h) (next_buffer h)) else None, h')
    /\ (accepted = true ->
        buffers h' = <[next_buffer h := mk_buffer 1 (mk_device hw_type true None None)]>
                       (buffers h)
        /\ released h' = released h).
Proof.
  intros Hnone Hqsv. cbn zeta. unfold hw_create_device, child_types_of.
  rewrite !decide_False by done.
  cbn [hw_create_device_loop]. rewrite bind_run. unfold av_hwdevice_ctx_create.
  destruct (device_outcome hw_type (device_selector hw_type hw_device)) as [cr e pl].
  cbn [created err payload]. destruct cr; cbn [andb]; [|by exists h].
  rewrite bind_run. cbn [alloc_device]. unfold mret at 1, M_ret at 1.
  destruct (0 <=? e); cbn [andb]; [|by eexists].
  rewrite bind_run. unfold read, hw_check_device, deref at 1.
  cbn [buffers buffer]. rewrite lookup_insert_eq. cbn [fmap option_fmap option_map data hwctx type].
  destruct pl; cbn [negb andb].
  2:{ rewrite bind_run. erewrite av_buffer_unref_last;
        [| cbn [buffers buffer]; by rewrite lookup_insert_eq | done].
      by eexists. }
  assert (Hvaapi : (if decide (hw_type = AV_HWDEVICE_TYPE_VAAPI)
                    then bool_decide (hw_type <> AV_HWDEVICE_TYPE_QSV) else true) = true).
  { destruct (decide _); [by apply bool_decide_eq_true_2|done]. }
  rewrite Hvaapi. cbn [andb].
  destruct (empty device_subname) eqn:He; cbn [negb andb].
  - rewrite decide_False by tauto. by eexists.
  - apply empty_false in He. rewrite (find_empty_subject _ He).
    rewrite bool_decide_eq_true_2 by done. cbn [negb].
    rewrite bind_run. erewrite av_buffer_unref_last;
      [| cbn [buffers buffer]; by rewrite lookup_insert_eq | done].
    by eexists.
Qed.

End DeviceBuilderEveryBackend.

(** ** Frame pool builder, the two paths *)

Section FramePoolPaths.

Variable avcodec_get_hw_frames_parameters :
  AVCodecContext -> AVBufferRef -> AVPixelFormat -> Z * option AVHWFramesContext.
Variable av_hwframe_ctx_alloc : AVBufferRef -> option AVHWFramesContext.
Variable av_hwdevice_get_hwframe_constraints : AVBufferRef -> option (list AVPixelFormat).
Variable av_hwframe_ctx_init : AVHWFramesContext -> Z.
Variable av_hwframe_ctx_create_derived :
  AVPixelFormat -> AVBufferRef -> AVHWFramesContext -> Z -> Z * option AVHWFramesContext.

Local Abbreviation create_frames :=
  (hw_create_frames avcodec_get_hw_frames_parameters av_hwframe_ctx_alloc
     av_hwdevice_get_hwframe_constraints av_hwframe_ctx_init
     av_hwframe_ctx_create_derived).
Local Abbreviation supplied :=
  (supplied_frames avcodec_get_hw_frames_parameters av_hwframe_ctx_alloc).

(** X12: on a device context that is not a media-SDK one, or is one
    without a stored child, or one whose child is DXVA2, the builder works
    on the device context itself: the descriptor is asked for that
    context, an unset format becomes the requested hardware format, a set
    one is kept, the pool returned is that descriptor, untagged, and
    neither the constraints query nor the derivation is ever called. *)
Theorem hw_create_frames_direct
    (h : Heap) (codec_ctx : option AVCodecContext) (dev : AVBufferRef)
    (d : AVHWDeviceContext) (w hgt : Z) (hw_format : AVPixelFormat) :
  deref h dev = Some d ->
  (type d <> AV_HWDEVICE_TYPE_QSV
   \/ user_opaque d = None
   \/ exists child dchild, user_opaque d = Some child /\ deref h child = Some dchild
                           /\ type dchild = AV_HWDEVICE_TYPE_DXVA2) ->
  create_frames h codec_ctx dev w hgt hw_format
  = match supplied codec_ctx dev hw_format with
    | None => Some None
    | Some before =>
        let pool :=
          mk_frames (if decide (format before = AV_PIX_FMT_NONE)
                     then hw_format else format before)
                    (if decide (sw_format before = AV_PIX_FMT_NONE)
                     then AV_PIX_FMT_NV12 else sw_format before)
                    w hgt
                    (if initial_pool_size before =? 0
                     then 32 else initial_pool_size before)
                    (frames_user_opaque before) in
        if av_hwframe_ctx_init pool <? 0 then Some None else Some (Some pool)
    end.
Proof.
  intros Hd Hdirect.
  assert (Hchild : frames_child_ctx h dev = Some dev).
  { unfold frames_child_ctx. rewrite Hd.
    destruct (decide (AV_HWDEVICE_TYPE_QSV = type d)) as [Hq|]; [|done].
    destruct Hdirect as [Hn|[->|(child & dchild & -> & -> & Hty)]]; [congruence|done|].
    by rewrite decide_False by (rewrite Hty; tauto). }
  unfold hw_create_frames. rewrite Hchild.
  rewrite bool_decide_eq_true_2 by done.
  destruct (supplied codec_ctx dev hw_format) as [before|]; [|done].
  unfold fill_frames. cbn zeta. cbn [negb].
  destruct (_ <? 0); done.
Qed.

(** X13: on a media-SDK context that stores a live child other than DXVA2
    under another reference, the builder asks for the descriptor against
    the child; an unset format becomes the first valid hardware format of
    the child and never the requested one; after initialisation the pool
    is derived for the requested format on the media-SDK context with
    read and write mapping (flags 3), a negative result of the
    derivation gives [NULL], and the pool returned is the derived one
    tagged with the child descriptor. *)
Theorem hw_create_frames_layered
    (h : Heap) (codec_ctx : option AVCodecContext) (dev child : AVBufferRef)
    (d dchild : AVHWDeviceContext) (w hgt : Z) (hw_format : AVPixelFormat) :
  deref h dev = Some d ->
  type d = AV_HWDEVICE_TYPE_QSV ->
  user_opaque d = Some child ->
  deref h child = Some dchild ->
  type dchild <> AV_HWDEVICE_TYPE_DXVA2 ->
  ref_addr child <> ref_addr dev ->
  create_frames h codec_ctx dev w hgt hw_format
  = match supplied codec_ctx child hw_format with
    | None => Some None
    | Some before =>
        let child_pool :=
          mk_frames (if decide (format before = AV_PIX_FMT_NONE)
                     then match av_hwdevice_get_hwframe_constraints child with
                          | Some valid_hw_formats => first_format valid_hw_formats
                          | None => AV_PIX_FMT_NONE
                          end
                     else format before)
                    (if decide (sw_format before = AV_PIX_FMT_NONE)
                     then AV_PIX_FMT_NV12 else sw_format before)
                    w hgt
                    (if initial_pool_size before =? 0
                     then 32 else initial_pool_size before)
                    (frames_user_opaque before) in
        if av_hwframe_ctx_init child_pool <? 0 then Some None
        else
          let '(res, derived) := av_hwframe_ctx_create_derived hw_format dev child_pool 3 in
          if res <? 0 then Some None
          else match derived with
               | Some p => Some (Some (mk_frames (format p) (sw_format p) (width p)
                                                 (height p) (initial_pool_size p)
                                                 (Some child_pool)))
               | None => None
               end
    end.
Proof.
  intros Hd Hty Hchild Hdc Hnot Hne.
  assert (Hcc : frames_child_ctx h dev = Some child).
  { unfold frames_child_ctx. rewrite Hd, decide_True by done.
    rewrite Hchild, Hdc. by rewrite decide_True by (intros Heq; by apply Hnot). }
  unfold hw_create_frames. rewrite Hcc.
  rewrite bool_decide_eq_false_2 by done.
  destruct (supplied codec_ctx child hw_format) as [before|]; [|done].
  unfold fill_frames. cbn zeta. cbn [negb].
  assert (Hfmt : (if decide (format before = AV_PIX_FMT_NONE)
                  then match av_hwdevice_get_hwframe_constraints child with
                       | Some valid_hw_formats => first_format valid_hw_formats
                       | None => format before
                       end
                  else format before)
                 = (if decide (format before = AV_PIX_FMT_NONE)
                    then match av_hwdevice_get_hwframe_constraints child with
                         | Some valid_hw_formats => first_format valid_hw_formats
                         | None => AV_PIX_FMT_NONE
                         end
                    else format before)).
  { destruct (decide _) as [->|]; [|done]. by destruct (av_hwdevice_get_hwframe_constraints child). }
  rewrite Hfmt.
  destruct (_ <? 0); [done|].
  change (Z.lor AV_HWFRAME_MAP_READ AV_HWFRAME_MAP_WRITE) with 3.
  destruct (av_hwframe_ctx_create_derived _ _ _ _) as [res [p|]]; done.
Qed.

End FramePoolPaths.

(** ** Format-selection callback, what it changes and what it chooses *)

Section CallbackChoice.

Variable avcodec_get_hw_frames_parameters :
  AVCodecContext -> AVBufferRef -> AVPixelFormat -> Z * option AVHWFramesContext.
Variable av_hwframe_ctx_alloc : AVBufferRef -> option AVHWFramesContext.
Variable av_hwdevice_get_hwframe_constraints : AVBufferRef -> option (list AVPixelFormat).
Variable av_hwframe_ctx_init : AVHWFramesContext -> Z.
Variable av_hwframe_ctx_create_derived :
  AVPixelFormat -> AVBufferRef -> AVHWFramesContext -> Z -> Z * option AVHWFramesContext.
Variable h : Heap.

Local Abbreviation create_frames :=
  (hw_create_frames avcodec_get_hw_frames_parameters av_hwframe_ctx_alloc
     av_hwdevice_get_hwframe_constraints av_hwframe_ctx_init
     av_hwframe_ctx_create_derived).
Local Abbreviation callback :=
  (hw_get_format_callback avcodec_get_hw_frames_parameters av_hwframe_ctx_alloc
     av_hwdevice_get_hwframe_constraints av_hwframe_ctx_init
     av_hwframe_ctx_create_derived).
Local Abbreviation offered :=
  (offered_loop avcodec_get_hw_frames_parameters av_hwframe_ctx_alloc
     av_hwdevice_get_hwframe_constraints av_hwframe_ctx_init
     av_hwframe_ctx_create_derived).
Local Abbreviation configs :=
  (configs_loop avcodec_get_hw_frames_parameters av_hwframe_ctx_alloc
     av_hwdevice_get_hwframe_constraints av_hwframe_ctx_init
     av_hwframe_ctx_create_derived).

Lemma offered_loop_post (dev : AVBufferRef) (hw_config : AVCodecHWConfig)
    (fmt : list AVPixelFormat) :
  forall ctx r ctx',
    offered h hw_config fmt ctx dev = Some (r, ctx') ->
    (hw_device_ctx ctx' = hw_device_ctx ctx /\ codec ctx' = codec ctx
     /\ ctx_width ctx' = ctx_width ctx /\ ctx_height ctx' = ctx_height ctx)
    /\ ((sw_pix_fmt ctx' = sw_pix_fmt ctx /\ hw_frames_ctx ctx' = hw_frames_ctx ctx)
        \/ sw_pix_fmt ctx' = AV_PIX_FMT_NV12)
    /\ match r with
       | None => hw_frames_ctx ctx' = hw_frames_ctx ctx \/ hw_frames_ctx ctx' = None
       | Some f =>
           In f fmt /\ f <> AV_PIX_FMT_NONE /\ f = pix_fmt hw_config
           /\ Z.land (methods hw_config) AV_CODEC_HW_CONFIG_METHOD_HW_FRAMES_CTX <> 0
           /\ sw_pix_fmt ctx' = AV_PIX_FMT_NV12
           /\ exists pool cc,
                hw_frames_ctx ctx' = Some pool
                /\ sw_pix_fmt cc = AV_PIX_FMT_NV12
                /\ create_frames h (Some cc) dev (ctx_width ctx) (ctx_height ctx) f
                   = Some (Some pool)
       end.
Proof.
  induction fmt as [|f fmt IH]; intros ctx r ctx'; cbn [offered_loop].
  { intros [= <- <-]. by auto. }
  assert (Hskip : offered h hw_config fmt ctx dev = Some (r, ctx') ->
                  (hw_device_ctx ctx' = hw_device_ctx ctx /\ codec ctx' = codec ctx
                   /\ ctx_width ctx' = ctx_width ctx /\ ctx_height ctx' = ctx_height ctx)
                  /\ ((sw_pix_fmt ctx' = sw_pix_fmt ctx
                       /\ hw_frames_ctx ctx' = hw_frames_ctx ctx)
                      \/ sw_pix_fmt ctx' = AV_PIX_FMT_NV12)
                  /\ match r with
                     | None => hw_frames_ctx ctx' = hw_frames_ctx ctx
                               \/ hw_frames_ctx ctx' = None
                     | Some f' =>
                         In f' (f :: fmt) /\ f' <> AV_PIX_FMT_NONE /\ f' = pix_fmt hw_config
                         /\ Z.land (methods hw_config) AV_CODEC_HW_CONFIG_METHOD_HW_FRAMES_CTX <> 0
                         /\ sw_pix_fmt ctx' = AV_PIX_FMT_NV12
                         /\ exists pool cc,
                              hw_frames_ctx ctx' = Some pool
                              /\ sw_pix_fmt cc = AV_PIX_FMT_NV12
                              /\ create_frames h (Some cc) dev (ctx_width ctx) (ctx_height ctx) f'
                                 = Some (Some pool)
                     end).
  { intros Hrun. destruct (IH _ _ _ Hrun) as (Hsame & Hsw & Hr).
    split; [done|]. split; [done|]. destruct r; [|done].
    destruct Hr as (Hin & Hr). split; [by right | done]. }
  destruct (decide (f = AV_PIX_FMT_NONE)); [intros [= <- <-]; by auto|].
  destruct (decide (f = pix_fmt hw_config)) as [Hf|]; [|exact Hskip].
  destruct (Z.land (methods hw_config) AV_CODEC_HW_CONFIG_METHOD_HW_FRAMES_CTX =? 0) eqn:Hm;
    cbn [negb]; [exact Hskip|].
  cbn [hw_device_ctx codec ctx_width ctx_height sw_pix_fmt].
  destruct (create_frames _ _ _ _ _ _) as [[pool|]|] eqn:Hcf; [| |done].
  - intros [= <- <-]. cbn.
    split; [done|]. split; [by right|].
    split; [by left|]. split; [done|]. split; [done|]. split; [lia|]. split; [done|].
    eexists pool, _. split; [done|]. split; [|exact Hcf]. done.
  - intros Hrun. destruct (IH _ _ _ Hrun) as (Hsame & Hsw & Hr).
    cbn [hw_device_ctx codec ctx_width ctx_height sw_pix_fmt hw_frames_ctx] in *.
    split; [done|]. split; [right; by destruct Hsw as [[-> _]| ->]|].
    destruct r as [f'|].
    + destruct Hr as (Hin & Hr). split; [by right | done].
    + right. by destruct Hr as [-> | ->].
Qed.

Lemma configs_loop_post (dev : AVBufferRef) (hw_type : AVHWDeviceType)
    (cfgs : list AVCodecHWConfig) (fmt : list AVPixelFormat) :
  forall ctx r ctx',
    configs h hw_type cfgs fmt ctx dev = Some (r, ctx') ->
    (hw_device_ctx ctx' = hw_device_ctx ctx /\ codec ctx' = codec ctx
     /\ ctx_width ctx' = ctx_width ctx /\ ctx_height ctx' = ctx_height ctx)
    /\ ((sw_pix_fmt ctx' = sw_pix_fmt ctx /\ hw_frames_ctx ctx' = hw_frames_ctx ctx)
        \/ sw_pix_fmt ctx' = AV_PIX_FMT_NV12)
    /\ match r with
       | None => hw_frames_ctx ctx' = hw_frames_ctx ctx \/ hw_frames_ctx ctx' = None
       | Some f =>
           In f fmt /\ f <> AV_PIX_FMT_NONE
           /\ sw_pix_fmt ctx' = AV_PIX_FMT_NV12
           /\ (exists cfg, In cfg cfgs /\ device_type cfg = hw_type /\ pix_fmt cfg = f
                           /\ Z.land (methods cfg) AV_CODEC_HW_CONFIG_METHOD_HW_FRAMES_CTX <> 0)
           /\ exists pool cc,
                hw_frames_ctx ctx' = Some pool
                /\ sw_pix_fmt cc = AV_PIX_FMT_NV12
                /\ create_frames h (Some cc) dev (ctx_width ctx) (ctx_height ctx) f
                   = Some (Some pool)
       end.
Proof.
  induction cfgs as [|cfg cfgs IH]; intros ctx r ctx'; cbn [configs_loop].
  { intros [= <- <-]. by auto. }
  assert (Hskip : forall c,
             (hw_device_ctx c = hw_device_ctx ctx /\ codec c = codec ctx
              /\ ctx_width c = ctx_width ctx /\ ctx_height c = ctx_height ctx) ->
             ((sw_pix_fmt c = sw_pix_fmt ctx /\ hw_frames_ctx c = hw_frames_ctx ctx)
              \/ sw_pix_fmt c = AV_PIX_FMT_NV12) ->
             (hw_frames_ctx c = hw_frames_ctx ctx \/ hw_frames_ctx c = None) ->
             configs h hw_type cfgs fmt c dev = Some (r, ctx') ->
             (hw_device_ctx ctx' = hw_device_ctx ctx /\ codec ctx' = codec ctx
              /\ ctx_width ctx' = ctx_width ctx /\ ctx_height ctx' = ctx_height ctx)
             /\ ((sw_pix_fmt ctx' = sw_pix_fmt ctx /\ hw_frames_ctx ctx' = hw_frames_ctx ctx)
                 \/ sw_pix_fmt ctx' = AV_PIX_FMT_NV12)
             /\ match r with
                | None => hw_frames_ctx ctx' = hw_frames_ctx ctx \/ hw_frames_ctx ctx' = None
                | Some f =>
                    In f fmt /\ f <> AV_PIX_FMT_NONE
                    /\ sw_pix_fmt ctx' = AV_PIX_FMT_NV12
                    /\ (exists cfg', In cfg' (cfg :: cfgs) /\ device_type cfg' = hw_type
                                     /\ pix_fmt cfg' = f
                                     /\ Z.land (methods cfg')
                                               AV_CODEC_HW_CONFIG_METHOD_HW_FRAMES_CTX <> 0)
                    /\ exists pool cc,
                         hw_frames_ctx ctx' = Some pool
                         /\ sw_pix_fmt cc = AV_PIX_FMT_NV12
                         /\ create_frames h (Some cc) dev (ctx_width ctx) (ctx_height ctx) f
                            = Some (Some pool)
                end).
  { intros c (Hd & Hc & Hw & Hh) Hsw Hfr Hrun.
    destruct (IH _ _ _ Hrun) as ((Hd' & Hc' & Hw' & Hh') & Hsw' & Hr).
    split; [repeat split; congruence|]. split.
    { destruct Hsw' as [[Ha Hb]| ->]; [|by right].
      destruct Hsw as [[Hx Hy]|Hx]; [left; split; congruence | right; congruence]. }
    destruct r as [f|].
    - destruct Hr as (Hin & Hnn & Hnv & (cfg' & Hcin & Hcfg) & pool & cc & Hp & Hcc & Hcf).
      split; [done|]. split; [done|]. split; [done|].
      split; [exists cfg'; split; [by right | done]|].
      exists pool, cc. rewrite <- Hw, <- Hh. done.
    - destruct Hr as [-> | ->]; [exact Hfr | by right]. }
  destruct (decide (device_type cfg = hw_type)) as [Hty|].
  2:{ apply Hskip; auto. }
  destruct (offered h cfg fmt ctx dev) as [[[f|] c]|] eqn:Hoff; [| |done].
  - intros [= <- <-].
    destruct (offered_loop_post dev cfg fmt _ _ _ Hoff)
      as (Hsame & Hsw & Hin & Hnn & Hf & Hm & Hnv & Hpool).
    split; [done|]. split; [done|]. split; [done|]. split; [done|]. split; [done|].
    split; [|done]. exists cfg. split; [by left | done].
  - destruct (offered_loop_post dev cfg fmt _ _ _ Hoff) as (Hsame & Hsw & Hr).
    by apply Hskip.
Qed.

(** X14: the callback leaves the codec context's device context, codec,
    width and height as they were; a pool is pinned only together with the
    NV12 software-format hint, and then the format returned is an offered
    one, not [AV_PIX_FMT_NONE], that a hardware config of the active
    backend advertises with the frames-context method, and the pool is the
    one the builder made for that format at the context's size; in every
    other case the first offered format is returned and the pool field is
    what it was or [NULL]. *)
Theorem hw_get_format_callback_choice
    (ctx : AVCodecContext) (fmt : list AVPixelFormat)
    (f : AVPixelFormat) (ctx' : AVCodecContext) :
  callback h ctx fmt = Some (f, ctx') ->
  (hw_device_ctx ctx' = hw_device_ctx ctx /\ codec ctx' = codec ctx
   /\ ctx_width ctx' = ctx_width ctx /\ ctx_height ctx' = ctx_height ctx)
  /\ ((sw_pix_fmt ctx' = sw_pix_fmt ctx /\ hw_frames_ctx ctx' = hw_frames_ctx ctx)
      \/ sw_pix_fmt ctx' = AV_PIX_FMT_NV12)
  /\ ((f = first_format fmt
       /\ (hw_frames_ctx ctx' = hw_frames_ctx ctx \/ hw_frames_ctx ctx' = None))
      \/ (exists dev d cfg pool cc,
            hw_device_ctx ctx = Some dev /\ deref h dev = Some d
            /\ In cfg (hw_configs (codec ctx)) /\ device_type cfg = type d
            /\ pix_fmt cfg = f
            /\ Z.land (methods cfg) AV_CODEC_HW_CONFIG_METHOD_HW_FRAMES_CTX <> 0
            /\ In f fmt /\ f <> AV_PIX_FMT_NONE
            /\ sw_pix_fmt ctx' = AV_PIX_FMT_NV12
            /\ hw_frames_ctx ctx' = Some pool
            /\ sw_pix_fmt cc = AV_PIX_FMT_NV12
            /\ create_frames h (Some cc) dev (ctx_width ctx) (ctx_height ctx) f
               = Some (Some pool))).
Proof.
  unfold hw_get_format_callback.
  destruct (hw_device_ctx ctx) as [dev|] eqn:Hdev.
  2:{ intros [= <- <-]. split; [done|]. split; [by left|]. left. by auto. }
  destruct (deref h dev) as [d|] eqn:Hd; [|done].
  destruct (configs h (type d) (hw_configs (codec ctx)) fmt ctx dev)
    as [[[f'|] c]|] eqn:Hcfg; [| |done]; intros [= <- <-];
    destruct (configs_loop_post dev (type d) _ fmt _ _ _ Hcfg) as (Hsame & Hsw & Hr);
    rewrite Hdev in Hsame.
  - split; [done|]. split; [done|]. right.
    destruct Hr as (Hin & Hnn & Hnv & (cfg & Hcin & Hty & Hpf & Hm) & pool & cc & Hp & Hcc & Hcf).
    exists dev, d, cfg, pool, cc. repeat split; done.
  - split; [done|]. split; [done|]. left. done.
Qed.

End CallbackChoice.

(** ** Codec selector, hardware backends *)

Lemma hw_check_codec_tokens (c : AVCodec) (hw_type : AVHWDeviceType)
    (type_name disabled_codecs : string) :
  av_hwdevice_get_type_name hw_type = Some type_name ->
  hw_check_codec c hw_type (Some disabled_codecs)
  = Some (negb (existsb (vetoes (codec_name c) ("." ++ type_name))
                        (comma_tokens disabled_codecs))).
Proof.
  intros Hname. unfold hw_check_codec. rewrite Hname.
  apply hw_check_codec_loop_tokens. lia.
Qed.

Lemma hw_type_has_name (hw_type : AVHWDeviceType) :
  hw_type <> AV_HWDEVICE_TYPE_NONE ->
  exists type_name, av_hwdevice_get_type_name hw_type = Some type_name.
Proof. destruct hw_type; intros Hne; try done; by eexists. Qed.

Section CodecSelectorFacts.

Variable old_libavutil : bool.
Variable hw_type : AVHWDeviceType.
Variable disabled_codecs : option string.
Variable c : AVCodec.
Variable allowed : bool.
Hypothesis Hcheck : hw_check_codec c hw_type disabled_codecs = Some allowed.

(** The scan of [pix_fmts] for the native format. *)
Lemma pix_fmts_loop_run (hw_native_fmt : AVPixelFormat) (fmts : list AVPixelFormat) :
  forall hw_pix_fmt,
    exists f,
      pix_fmts_loop c hw_type disabled_codecs hw_native_fmt fmts hw_pix_fmt
      = Some ((allowed && array_mem hw_native_fmt fmts)%bool, f)
      /\ (array_mem hw_native_fmt fmts = true -> f = hw_native_fmt)
      /\ (array_mem hw_native_fmt fmts = false -> f = hw_pix_fmt).
Proof.
  induction fmts as [|x fmts IH]; intros hw_pix_fmt; cbn [pix_fmts_loop array_mem].
  { exists hw_pix_fmt. by rewrite andb_false_r. }
  destruct (decide (x = AV_PIX_FMT_NONE)).
  { exists hw_pix_fmt. by rewrite andb_false_r. }
  destruct (decide (x = hw_native_fmt)); [|apply IH].
  rewrite Hcheck. destruct allowed.
  - exists hw_native_fmt. by split.
  - destruct (IH hw_native_fmt) as (f & -> & Hin & Hout).
    exists f. cbn [andb]. split; [done|]. split; [|done].
    intros _. destruct (array_mem hw_native_fmt fmts); auto.
Qed.

(** The scan of the hardware configs. *)
Lemma hw_config_loop_run (cfgs : list AVCodecHWConfig) :
  forall hw_pix_fmt,
    let listed := existsb (fun cfg => bool_decide (device_type cfg = hw_type)) cfgs in
    exists f,
      hw_config_loop c hw_type disabled_codecs cfgs hw_pix_fmt
      = Some ((allowed && listed)%bool, f)
      /\ (listed = true ->
          exists cfg, In cfg cfgs /\ device_type cfg = hw_type /\ pix_fmt cfg = f)
      /\ (listed = false -> f = hw_pix_fmt).
Proof.
  induction cfgs as [|cfg cfgs IH]; intros hw_pix_fmt; cbn [hw_config_loop existsb].
  { exists hw_pix_fmt. by rewrite andb_false_r. }
  destruct (decide (device_type cfg = hw_type)) as [Hty|Hty].
  - rewrite (bool_decide_eq_true_2 _ Hty). cbn [orb]. rewrite Hcheck.
    destruct allowed.
    + exists (pix_fmt cfg). split; [done|]. split; [|done].
      intros _. exists cfg. split; [by left | done].
    + destruct (IH (pix_fmt cfg)) as (f & -> & Hin & Hout). cbn zeta in *.
      exists f. split; [done|]. split; [|done]. intros _.
      destruct (existsb _ cfgs).
      * destruct (Hin eq_refl) as (cfg' & Hc & Hrest). exists cfg'. split; [by right|done].
      * exists cfg. split; [by left|]. split; [done|]. by rewrite Hout.
  - rewrite (bool_decide_eq_false_2 _ Hty). cbn [orb].
    destruct (IH hw_pix_fmt) as (f & -> & Hin & Hout). cbn zeta in *.
    exists f. split; [done|]. split; [|done]. intros Hl.
    destruct (Hin Hl) as (cfg' & Hc & Hrest). exists cfg'. split; [by right|done].
Qed.

End CodecSelectorFacts.

Section CodecSelectorHardware.

Variable codecs : list AVCodec.
Variable old_libavutil : bool.
Variable id : Z.
Variable hw_type : AVHWDeviceType.
Variable check_category : AVCodec -> Z.
Variable disabled_codecs : string.
Hypothesis Hhw : hw_type <> AV_HWDEVICE_TYPE_NONE.

Local Abbreviation selectable :=
  (fun c => passes_filters check_category id c
            && hw_capable old_libavutil c hw_type
            && bool_decide (hw_check_codec c hw_type (Some disabled_codecs) = Some true))%bool.

Lemma hw_find_codec_loop_run (cs : list AVCodec) :
  forall hw_pix_fmt,
    exists f,
      hw_find_codec_loop old_libavutil cs id hw_type check_category
        (Some disabled_codecs) hw_pix_fmt
      = Some (List.find selectable cs, f)
      /\ forall c, List.find selectable cs = Some c ->
           (exists cfg, In cfg (hw_configs c) /\ device_type cfg = hw_type
                        /\ pix_fmt cfg = f)
           \/ (is_encoder c = true
               /\ f = native_format old_libavutil hw_type
               /\ f <> AV_PIX_FMT_NONE
               /\ exists fmts, pix_fmts c = Some fmts /\ array_mem f fmts = true).
Proof.
  destruct (hw_type_has_name hw_type Hhw) as [type_name Hname].
  induction cs as [|c cs IH]; intros hw_pix_fmt; cbn [hw_find_codec_loop List.find].
  { exists hw_pix_fmt. by split. }
  unfold passes_filters.
  destruct (check_category c =? 0); cbn [negb andb]; [apply IH|].
  destruct (codec_id c =? id); cbn [negb andb]; [|apply IH].
  destruct (Z.land (capabilities c) AV_CODEC_CAP_EXPERIMENTAL =? 0); cbn [negb andb];
    [|apply IH].
  rewrite decide_True by done.
  pose proof (hw_check_codec_tokens c hw_type type_name disabled_codecs Hname) as Hcheck.
  set (allowed := negb _) in Hcheck.
  unfold hw_capable. set (native := native_format old_libavutil hw_type).
  assert (Hscan : exists f1,
             match pix_fmts c with
             | Some fmts =>
                 if (is_encoder c && negb (bool_decide (native = AV_PIX_FMT_NONE)))%bool
                 then pix_fmts_loop c hw_type (Some disabled_codecs) native fmts hw_pix_fmt
                 else Some (false, hw_pix_fmt)
             | None => Some (false, hw_pix_fmt)
             end
             = Some ((allowed
                      && (is_encoder c && negb (bool_decide (native = AV_PIX_FMT_NONE))
                          && match pix_fmts c with
                             | Some fmts => array_mem native fmts
                             | None => false
                             end))%bool, f1)
             /\ (allowed = true ->
                 (is_encoder c && negb (bool_decide (native = AV_PIX_FMT_NONE))
                  && match pix_fmts c with
                     | Some fmts => array_mem native fmts
                     | None => false
                     end)%bool = true ->
                 f1 = native)).
  { destruct (pix_fmts c) as [fmts|].
    2:{ exists hw_pix_fmt. rewrite !andb_false_r. by split. }
    destruct (is_encoder c && negb (bool_decide (native = AV_PIX_FMT_NONE)))%bool;
      cbn [andb].
    2:{ exists hw_pix_fmt. rewrite andb_false_r. by split. }
    destruct (pix_fmts_loop_run hw_type (Some disabled_codecs) c allowed Hcheck native fmts
                hw_pix_fmt) as (f1 & Hrun & Hin & _).
    exists f1. split; [done|]. intros _ Hm. by apply Hin. }
  destruct Hscan as (f1 & -> & Hnative).
  destruct (hw_config_loop_run hw_type (Some disabled_codecs) c allowed Hcheck (hw_configs c) f1)
    as (f2 & Hcfg & Hlisted & _).
  cbn zeta in Hcfg, Hlisted.
  rewrite Hcheck.
  destruct allowed.
  2:{ cbn [andb]. rewrite Hcfg. cbn [andb].
      rewrite (bool_decide_eq_false_2 (Some false = Some true)) by done.
      rewrite andb_false_r. apply IH. }
  rewrite (bool_decide_eq_true_2 (Some true = Some true)) by done.
  rewrite andb_true_r. cbn [andb] in *.
  destruct (is_encoder c && negb (bool_decide (native = AV_PIX_FMT_NONE))
            && match pix_fmts c with
               | Some fmts => array_mem native fmts
               | None => false
               end)%bool eqn:Hm; cbn [orb].
  - exists f1. split; [done|]. intros c' [= <-]. right.
    rewrite (Hnative eq_refl eq_refl).
    apply andb_true_iff in Hm as [Hm Hmem]. apply andb_true_iff in Hm as [Henc Hnn].
    split; [done|]. split; [done|].
    split; [by apply negb_true_iff, bool_decide_eq_false in Hnn|].
    destruct (pix_fmts c) as [fmts|]; [|done]. by exists fmts.
  - rewrite Hcfg.
    destruct (existsb _ (hw_configs c)) eqn:Hl.
    + exists f2. split; [done|]. intros c' [= <-]. left. by apply Hlisted.
    + apply IH.
Qed.

(** X15: for a hardware backend and a disabled-codec list the selector
    returns the first codec of the enumeration that passes the category
    check, has the codec ID, is not experimental, offers the backend (an
    encoder listing the backend's native format, or a hardware config of
    the backend's device type) and is not vetoed by the disable-check; it
    returns no codec exactly when there is none. *)
Theorem hw_find_codec_first_selectable (hw_pix_fmt : AVPixelFormat) :
  exists f,
    hw_find_codec codecs old_libavutil id hw_type check_category
      (Some disabled_codecs) hw_pix_fmt
    = Some (List.find selectable codecs, f).
Proof.
  destruct (hw_find_codec_loop_run codecs hw_pix_fmt) as (f & Hrun & _).
  by exists f.
Qed.

(** X16: the hardware pixel format the selector writes for the codec it
    returns is the format of one of that codec's hardware configs for the
    backend's device type, or, for an encoder, the backend's fixed native
    format found in the encoder's format list. *)
Theorem hw_find_codec_pixel_format
    (hw_pix_fmt : AVPixelFormat) (c : AVCodec) (f : AVPixelFormat) :
  hw_find_codec codecs old_libavutil id hw_type check_category
    (Some disabled_codecs) hw_pix_fmt = Some (Some c, f) ->
  In c codecs
  /\ hw_check_codec c hw_type (Some disabled_codecs) = Some true
  /\ ((exists cfg, In cfg (hw_configs c) /\ device_type cfg = hw_type /\ pix_fmt cfg = f)
      \/ (is_encoder c = true
          /\ f = native_format old_libavutil hw_type
          /\ f <> AV_PIX_FMT_NONE
          /\ exists fmts, pix_fmts c = Some fmts /\ array_mem f fmts = true)).
Proof.
  unfold hw_find_codec.
  destruct (hw_find_codec_loop_run codecs hw_pix_fmt) as (f' & -> & Hfmt).
  intros [= Hfind <-].
  destruct (find_some _ _ Hfind) as [Hin Hsel].
  apply andb_true_iff in Hsel as [_ Hchk]. apply bool_decide_eq_true in Hchk.
  split; [done|]. split; [done|]. by apply Hfmt.
Qed.

(** X17: a disabled-codec list with the token "hw" makes the selector
    return no codec for every hardware backend, whatever the library
    enumerates. *)
Theorem hw_find_codec_hw_disables_all (hw_pix_fmt : AVPixelFormat) :
  In "hw" (comma_tokens disabled_codecs) ->
  exists f,
    hw_find_codec codecs old_libavutil id hw_type check_category
      (Some disabled_codecs) hw_pix_fmt = Some (None, f).
Proof.
  intros Hin. unfold hw_find_codec.
  destruct (hw_find_codec_loop_run codecs hw_pix_fmt) as (f & -> & _).
  exists f. do 2 f_equal.
  destruct (List.find selectable codecs) as [c|] eqn:Hfind; [|done].
  destruct (find_some _ _ Hfind) as [_ Hsel].
  apply andb_true_iff in Hsel as [_ Hchk]. apply bool_decide_eq_true in Hchk.
  destruct (hw_type_has_name hw_type Hhw) as [type_name Hname].
  rewrite (hw_check_codec_tokens c hw_type type_name disabled_codecs Hname) in Hchk.
  injection Hchk as Hchk. apply negb_true_iff in Hchk.
  assert (Hex : existsb (vetoes (codec_name c) ("." ++ type_name))
                        (comma_tokens disabled_codecs) = true).
  { apply existsb_exists. exists "hw". split; [done|]. apply vetoes_spec. auto. }
  congruence.
Qed.

End CodecSelectorHardware.

(** ** From the device builder to the frame pool builder *)

Lemma hw_check_device_accepts_payload
    (h : Heap) (r : AVBufferRef) (d : AVHWDeviceContext)
    (hw_type : AVHWDeviceType) (device_subname : string) :
  deref h r = Some d ->
  hw_check_device h (Some r) hw_type device_subname = Some true ->
  hwctx d = true.
Proof.
  intros Hd. unfold hw_check_device. rewrite Hd. by destruct (hwctx d).
Qed.

Section LayeredContext.

Variable device_outcome : AVHWDeviceType -> option string -> Outcome.
Variable derived_outcome : AVHWDeviceType -> AVHWDeviceContext -> Outcome.
Variable ref_outcome : AVBufferRef -> bool.
Variable hw_type : AVHWDeviceType.
Variable hw_device : Z.
Variable device_subname : string.

(** The parent that comes out of the loop when every stage differs from
    the requested type, and the child it stores when [av_buffer_ref] gave
    a reference. *)
Lemma hw_create_device_loop_layered (child_types : list AVHWDeviceType) :
  Forall (fun child_type => hw_type <> child_type) child_types ->
  forall (h : Heap) (parent : AVBufferRef) (h1 : Heap),
    hw_create_device_loop device_outcome derived_outcome ref_outcome hw_type hw_device
      device_subname child_types h = Some (Some parent, h1) ->
    exists dp,
      deref h1 parent = Some dp
      /\ type dp = hw_type
      /\ match user_opaque dp with
         | Some child =>
             exists dc,
               deref h1 child = Some dc
               /\ In (type dc) child_types
               /\ hwctx dc = true
               /\ ref_addr child <> ref_addr parent
         | None => True
         end
      /\ ((forall r, ref_outcome r = true) -> is_Some (user_opaque dp))
      /\ ((forall r, ref_outcome r = false) -> user_opaque dp = None).
Proof.
  induction 1 as [|child_type rest Hne Hrest IH]; intros h parent h1.
  { cbn [hw_create_device_loop]. unfold mret, M_ret. intros [=]. }
  assert (Hnext : forall h0,
            hw_create_device_loop device_outcome derived_outcome ref_outcome hw_type
              hw_device device_subname rest h0 = Some (Some parent, h1) ->
            exists dp,
              deref h1 parent = Some dp
              /\ type dp = hw_type
              /\ match user_opaque dp with
                 | Some child =>
                     exists dc,
                       deref h1 child = Some dc
                       /\ In (type dc) (child_type :: rest)
                       /\ hwctx dc = true
                       /\ ref_addr child <> ref_addr parent
                 | None => True
                 end
              /\ ((forall r, ref_outcome r = true) -> is_Some (user_opaque dp))
              /\ ((forall r, ref_outcome r = false) -> user_opaque dp = None)).
  { intros h0 Hrun. destruct (IH _ _ _ Hrun) as (dp & H1 & H2 & H3 & H4 & H5).
    exists dp. split; [done|]. split; [done|]. split; [|by split].
    destruct (user_opaque dp) as [child|]; [|done].
    destruct H3 as (dc & Hc & Hin & Hpay & Href). exists dc.
    split; [done|]. split; [by right|]. by split. }
  cbn [hw_create_device_loop]. rewrite bind_run. unfold av_hwdevice_ctx_create.
  destruct (device_outcome child_type (device_selector child_type hw_device))
    as [cr e pl].
  cbn [created err payload]. destruct cr; [|by apply Hnext].
  rewrite bind_run. cbn [alloc_device]. unfold mret at 1, M_ret at 1.
  destruct (0 <=? e); [|by apply Hnext].
  set (ctx := mk_ref (next_ref h) (next_buffer h)).
  set (dc := mk_device child_type pl None None).
  set (ha := mk_heap _ _ _ _).
  assert (Hctx : buffers ha !! buffer ctx = Some (mk_buffer 1 dc)).
  { subst ha ctx. cbn [buffers buffer]. by rewrite lookup_insert_eq. }
  assert (Hderef : deref ha ctx = Some dc) by (unfold deref; by rewrite Hctx).
  destruct (hw_check_device_defined ha ctx dc hw_type device_subname Hderef) as [ok Hok].
  rewrite bind_run. erewrite read_run by exact Hok.
  destruct ok; cbn [negb].
  2:{ rewrite bind_run. erewrite av_buffer_unref_last by done. by apply Hnext. }
  pose proof (hw_check_device_accepts_payload ha ctx dc hw_type device_subname Hderef Hok)
    as Hpayload.
  rewrite decide_True by done. rewrite bind_run.
  assert (Hfresh : buffer ctx <> next_buffer ha).
  { subst ha ctx. cbn [buffer next_buffer]. lia. }
  rewrite (hw_create_derived_context_eq derived_outcome ref_outcome hw_type ctx O dc ha
             Hctx Hfresh).
  cbn zeta. destruct (derived_outcome hw_type dc) as [cr2 e2 pl2].
  cbn [created err payload]. destruct cr2.
  2:{ rewrite bind_run. destruct (av_buffer_unref ctx ha) as [[[] hb]|];
        unfold mret, M_ret; intros [=]. }
  destruct (e2 <? 0).
  { rewrite bind_run. destruct (av_buffer_unref ctx _) as [[[] hb]|];
      unfold mret, M_ret; intros [=]. }
  destruct (ref_outcome ctx) eqn:Href; rewrite bind_run.
  - erewrite (av_buffer_unref_shared ctx _ O dc); last first.
    { cbn [buffers]. rewrite lookup_insert_ne by done. by rewrite lookup_insert_eq. }
    unfold mret, M_ret. intros [= <- <-].
    eexists. unfold deref. cbn [buffers buffer].
    rewrite lookup_insert_ne by done. rewrite lookup_insert_eq.
    split; [reflexivity|]. cbn [data type user_opaque].
    split; [done|]. split; [|split].
    + exists dc. cbn [buffers buffer ref_addr]. rewrite lookup_insert_eq.
      split; [done|]. split; [by left|]. split; [done|].
      subst ha. cbn [next_ref]. lia.
    + by eexists.
    + intros Hnever. rewrite Hnever in Href. done.
  - erewrite (av_buffer_unref_last ctx _ dc); [| |done].
    2:{ cbn [buffers]. rewrite lookup_insert_ne by done. exact Hctx. }
    unfold mret, M_ret. intros [= <- <-].
    eexists. unfold deref. cbn [buffers buffer].
    rewrite lookup_delete_ne by done. rewrite lookup_insert_eq.
    split; [reflexivity|]. cbn [data type user_opaque].
    split; [done|]. split; [done|]. split; [|done].
    intros Halways. rewrite Halways in Href. done.
Qed.

(** X18: a media-SDK context that [hw_create_device] returns was built on
    Windows and stores what [av_buffer_ref] returned for its child. When
    that is a reference, it is one of its own to a validated D3D11 or DXVA2
    child, and the frame pool builder then allocates against that child
    when it is D3D11 and against the media-SDK context itself when it is
    DXVA2; when it is [NULL], the frame pool builder allocates against the
    media-SDK context itself. With a library whose [av_buffer_ref] never
    fails a child is always stored, with one whose [av_buffer_ref] always
    fails never. *)
Theorem hw_create_device_then_frames_child
    (target : Target) (use_opencl : bool)
    (h : Heap) (parent : AVBufferRef) (h1 : Heap) :
  hw_type = AV_HWDEVICE_TYPE_QSV ->
  hw_create_device target device_outcome derived_outcome ref_outcome hw_type
    hw_device device_subname use_opencl h = Some (Some parent, h1) ->
  target = Win32
  /\ exists dp,
       deref h1 parent = Some dp
       /\ match user_opaque dp with
          | Some child =>
              ref_addr child <> ref_addr parent
              /\ exists dc,
                   deref h1 child = Some dc
                   /\ hwctx dc = true
                   /\ ((type dc = AV_HWDEVICE_TYPE_D3D11VA
                        /\ frames_child_ctx h1 parent = Some child)
                       \/ (type dc = AV_HWDEVICE_TYPE_DXVA2
                           /\ frames_child_ctx h1 parent = Some parent))
          | None => frames_child_ctx h1 parent = Some parent
          end
       /\ ((forall r, ref_outcome r = true) -> is_Some (user_opaque dp))
       /\ ((forall r, ref_outcome r = false) -> user_opaque dp = None).
Proof.
  intros Hqsv. unfold hw_create_device. rewrite decide_False by (rewrite Hqsv; done).
  intros Hrun.
  assert (Hall : Forall (fun child_type => hw_type <> child_type)
                        (child_types_of target hw_type)).
  { rewrite Hqsv. unfold child_types_of. rewrite decide_True by done.
    destruct target; repeat constructor; done. }
  destruct (hw_create_device_loop_layered _ Hall _ _ _ Hrun)
    as (dp & Hp & Hty & Hchild & Hyes & Hno).
  assert (Htarget : target = Win32).
  { destruct target; [done|]. exfalso. rewrite Hqsv in Hrun.
    destruct (hw_create_device_loop_qsv_over_vaapi device_outcome hw_device
                device_subname h) as [h' Hnull].
    change (child_types_of NotWin32 AV_HWDEVICE_TYPE_QSV) with [AV_HWDEVICE_TYPE_VAAPI] in Hrun.
    rewrite (Hnull derived_outcome ref_outcome) in Hrun. done. }
  split; [done|]. exists dp.
  split; [done|]. split; [|by split].
  unfold frames_child_ctx. rewrite Hp, Hty, Hqsv, decide_True by done.
  destruct (user_opaque dp) as [child|]; [|done].
  destruct Hchild as (dc & Hc & Hin & Hpay & Href).
  split; [done|]. exists dc. split; [done|]. split; [done|].
  subst target. rewrite Hqsv in Hin. cbn in Hin. rewrite Hc.
  destruct Hin as [Hd|[Hd|[]]]; rewrite <- Hd.
  - left. split; [done|]. by rewrite decide_True by done.
  - right. split; [done|]. by rewrite decide_False by tauto.
Qed.

End LayeredContext.

(** ** Overrides and the dictionary lookup *)

(** X19: an override set under the key of one preference and role changes
    the candidate list of no other preference or role: the keys of the
    five named preferences and the two roles never match one another,
    even though the lookup ignores the case of letters. *)
Theorem override_is_per_preference_and_role
    (target : Target) (va1 va2 : VideoAccelerationType) (role1 role2 : bool)
    (override : string) :
  (forall v, va1 <> VIDEO_ACCELERATION_other v) ->
  (forall v, va2 <> VIDEO_ACCELERATION_other v) ->
  (va1, role1) <> (va2, role2) ->
  let dict := Some [(("hw_" ++ (if role1 then "encoders_" else "decoders_")
                      ++ getVideoAccelerationName va1)%string, override)] in
  (if role2 then getEncoderConfiguration target va2 dict
   else getDecoderConfiguration target va2 dict)
  = (if role2 then encoder_default target va2 else decoder_default target va2).
Proof.
  intros H1 H2 Hne. cbn zeta.
  destruct va1 as [| | | | | v1]; [| | | | | by destruct (H1 v1)];
    destruct va2 as [| | | | | v2]; try (by destruct (H2 v2));
    destruct role1, role2; try (by destruct Hne); reflexivity.
Qed.

Lemma av_toupper_idempotent (a : ascii) : av_toupper (av_toupper a) = av_toupper a.
Proof. destruct a as [[] [] [] [] [] [] [] []]; reflexivity. Qed.

Lemma key_matches_upper_case (key : string) : key_matches (upper_case key) key = true.
Proof.
  induction key as [|a key IH]; [done|]. cbn [upper_case key_matches].
  rewrite av_toupper_idempotent, Ascii.eqb_refl. exact IH.
Qed.

(** X20: the override lookup ignores the case of the key's letters: an
    entry whose key is the role's key written in upper case is honoured,
    and being first in the dictionary it is the one taken verbatim. *)
Theorem override_key_ignores_case
    (target : Target) (va_type : VideoAccelerationType) (isEncoder : bool)
    (override : string) (rest : AVDictionary) :
  let key := (if isEncoder then "hw_encoders_" else "hw_decoders_")
             ++ getVideoAccelerationName va_type in
  let dict := Some ((upper_case key, override) :: rest) in
  (if isEncoder then getEncoderConfiguration target va_type dict
   else getDecoderConfiguration target va_type dict) = override.
Proof.
  cbn zeta. unfold getEncoderConfiguration, getDecoderConfiguration, dict_value.
  destruct isEncoder; cbn [av_dict_get]; by rewrite key_matches_upper_case.
Qed.

(** ** Disable-check on the empty list *)

(** X21: the empty disabled-codec list still holds one token, the empty
    one: on every hardware backend it vetoes exactly the codecs whose name
    is empty and lets every named codec through. *)
Theorem hw_check_codec_empty_list (c : AVCodec) (hw_type : AVHWDeviceType) :
  hw_type <> AV_HWDEVICE_TYPE_NONE ->
  hw_check_codec c hw_type (Some "") = Some (negb (empty (codec_name c))).
Proof.
  intros Hhw. destruct (hw_type_has_name hw_type Hhw) as [type_name Hname].
  rewrite (hw_check_codec_tokens c hw_type type_name "" Hname).
  cbn [comma_tokens existsb]. unfold vetoes.
  destruct (codec_name c) as [|a name]; reflexivity.
Qed.

(** ** The further properties at sample inputs *)

Lemma heap_fresh_empty_heap : heap_fresh empty_heap.
Proof. intros k _. apply lookup_empty. Qed.


Lemma no_context_on_error_always_created : no_context_on_error always_created.
Proof. intros hw_type device _. cbn. lia. Qed.

Lemma parse_next_splits_at_first_dot_witness :
  find_char dot (hw_type_device_string_ sample_exhausted) <> None
  /\ hw_type_device_string_ sample_exhausted
     = hw_type_string_ sample_exhausted ++ "." ++ device_subname_ sample_exhausted.
Proof.
  split; [discriminate|].
  destruct (parse_next_splits_at_first_dot
              (HWAccelIterator_new NotWin32 VIDEO_ACCELERATION_VAAPI false None))
    as (_ & _ & _ & Hdot).
  apply Hdot. discriminate.
Defined.

Lemma parse_next_exhausted_witness :
  iter_good sample_exhausted = false
  /\ iter_good (parse_next sample_exhausted) = false
  /\ hw_type_device_string_ (parse_next sample_exhausted)
     = hw_type_device_string_ sample_exhausted
  /\ parse_next (parse_next sample_exhausted) = parse_next sample_exhausted.
Proof.
  split; [reflexivity|]. apply (parse_next_exhausted sample_exhausted). reflexivity.
Defined.

Lemma override_entries_round_trip_witness :
  VIDEO_ACCELERATION_VAAPI <> VIDEO_ACCELERATION_NONE
  /\ VIDEO_ACCELERATION_VAAPI <> VIDEO_ACCELERATION_ANY
  /\ Forall (fun tok => has_comma tok = false) sample_override_entries
  /\ join_commas sample_override_entries <> ""
  /\ dict_value sample_override (override_key VIDEO_ACCELERATION_VAAPI false)
     = Some (join_commas sample_override_entries)
  /\ entries (HWAccelIterator_new NotWin32 VIDEO_ACCELERATION_VAAPI false sample_override)
     = Some sample_override_entries.
Proof.
  split; [discriminate|]. split; [discriminate|].
  split; [repeat constructor|]. split; [discriminate|]. split; [reflexivity|].
  apply (override_entries_round_trip NotWin32 VIDEO_ACCELERATION_VAAPI false
           sample_override sample_override_entries);
    [discriminate | discriminate | repeat constructor | discriminate | reflexivity].
Defined.

Lemma defaults_name_their_backend_witness :
  named_backend VIDEO_ACCELERATION_MFX
  /\ dict_value None (override_key VIDEO_ACCELERATION_MFX true) = None
  /\ exists cands,
       candidates (HWAccelIterator_new Win32 VIDEO_ACCELERATION_MFX true None) = Some cands
       /\ Forall (fun cand => hw_type_to_va_type (fst cand) = VIDEO_ACCELERATION_MFX) cands.
Proof.
  split; [right; right; reflexivity|]. split; [reflexivity|].
  apply (defaults_name_their_backend Win32 VIDEO_ACCELERATION_MFX true None);
    [right; right; reflexivity | reflexivity].
Defined.

Lemma device_selector_distinguishes_indices_witness :
  0 <= 5 < 100000
  /\ device_selector AV_HWDEVICE_TYPE_VAAPI 5 = Some "/dev/dri/renderD133"
  /\ (device_selector AV_HWDEVICE_TYPE_VAAPI 5 = device_selector AV_HWDEVICE_TYPE_VAAPI 5 ->
      5 = 5)
  /\ ~ (0 <= 100000 < 100000)
  /\ device_selector AV_HWDEVICE_TYPE_VAAPI 100000 = None.
Proof.
  destruct (device_selector_distinguishes_indices AV_HWDEVICE_TYPE_VAAPI 5 5) as [_ Hinj].
  destruct (device_selector_distinguishes_indices AV_HWDEVICE_TYPE_VAAPI 100000 0)
    as [[_ Hnone] _].
  split; [lia|]. split; [reflexivity|]. split; [apply Hinj; lia|].
  split; [lia|]. apply Hnone. lia.
Defined.


Lemma hw_create_device_defined_and_leak_free_witness :
  heap_fresh empty_heap
  /\ no_context_on_error always_created
  /\ exists r h',
       hw_create_device NotWin32 always_created always_derived always_referenced
         AV_HWDEVICE_TYPE_QSV 0 "" false empty_heap = Some (r, h')
       /\ (r = None -> no_context_on_error always_created ->
           buffers h' = buffers empty_heap).
Proof.
  split; [exact heap_fresh_empty_heap|].
  split; [exact no_context_on_error_always_created|].
  apply (hw_create_device_defined_and_leak_free NotWin32 always_created always_derived
           always_referenced AV_HWDEVICE_TYPE_QSV 0 "" false empty_heap).
  exact heap_fresh_empty_heap.
Defined.

Lemma hw_create_device_returns_owned_context_witness :
  heap_fresh empty_heap
  /\ hw_create_device Win32 always_created always_derived always_referenced
       AV_HWDEVICE_TYPE_QSV 0 "" false empty_heap
     = Some (Some sample_parent, sample_derived_heap)
  /\ AV_HWDEVICE_TYPE_QSV <> AV_HWDEVICE_TYPE_NONE
  /\ "" = ""
  /\ buffers empty_heap !! buffer sample_parent = None
  /\ exists d, buffers sample_derived_heap !! buffer sample_parent = Some (mk_buffer 1 d)
               /\ type d = AV_HWDEVICE_TYPE_QSV.
Proof.
  split; [exact heap_fresh_empty_heap|]. split; [vm_compute; reflexivity|].
  apply (hw_create_device_returns_owned_context Win32 always_created always_derived
           always_referenced AV_HWDEVICE_TYPE_QSV 0 "" false empty_heap sample_parent
           sample_derived_heap);
    [exact heap_fresh_empty_heap | vm_compute; reflexivity].
Defined.

Lemma hw_create_device_filter_never_matches_witness :
  heap_fresh empty_heap
  /\ "iHD" <> ""
  /\ exists h',
       hw_create_device NotWin32 always_created always_derived always_referenced
         AV_HWDEVICE_TYPE_VAAPI 0 "iHD" false empty_heap = Some (None, h').
Proof.
  split; [exact heap_fresh_empty_heap|]. split; [discriminate|].
  apply (hw_create_device_filter_never_matches NotWin32 always_created always_derived
           always_referenced AV_HWDEVICE_TYPE_VAAPI 0 "iHD" false empty_heap);
    [exact heap_fresh_empty_heap | discriminate].
Defined.

Lemma hw_create_device_single_stage_witness :
  AV_HWDEVICE_TYPE_VAAPI <> AV_HWDEVICE_TYPE_NONE
  /\ AV_HWDEVICE_TYPE_VAAPI <> AV_HWDEVICE_TYPE_QSV
  /\ exists h',
       hw_create_device NotWin32 always_created always_derived always_referenced
         AV_HWDEVICE_TYPE_VAAPI 0 "" false empty_heap = Some (Some (mk_ref 0 0), h')
       /\ (true = true ->
           buffers h' = <[0%N := mk_buffer 1 (mk_device AV_HWDEVICE_TYPE_VAAPI true None None)]>
                          (buffers empty_heap)
           /\ released h' = released empty_heap).
Proof.
  split; [discriminate|]. split; [discriminate|].
  apply (hw_create_device_single_stage NotWin32 always_created always_derived
           always_referenced AV_HWDEVICE_TYPE_VAAPI 0 "" false empty_heap); discriminate.
Defined.

Lemma hw_create_frames_direct_witness :
  deref sample_heap sample_device
  = Some (mk_device AV_HWDEVICE_TYPE_VAAPI true None None)
  /\ AV_HWDEVICE_TYPE_VAAPI <> AV_HWDEVICE_TYPE_QSV
  /\ hw_create_frames no_parameters alloc_blank no_constraints init_ok derive_copy
       sample_heap None sample_device 640 480 AV_PIX_FMT_VAAPI_VLD
     = Some (Some sample_pool).
Proof.
  split; [reflexivity|]. split; [discriminate|].
  rewrite (hw_create_frames_direct no_parameters alloc_blank no_constraints init_ok
             derive_copy sample_heap None sample_device
             (mk_device AV_HWDEVICE_TYPE_VAAPI true None None) 640 480
             AV_PIX_FMT_VAAPI_VLD);
    [reflexivity | reflexivity | left; discriminate].
Defined.

Lemma hw_create_frames_layered_witness :
  deref sample_derived_heap sample_parent
  = Some (mk_device AV_HWDEVICE_TYPE_QSV true (Some sample_child)
                    (Some FreeChildContext_free))
  /\ deref sample_derived_heap sample_child
     = Some (mk_device AV_HWDEVICE_TYPE_D3D11VA true None None)
  /\ AV_HWDEVICE_TYPE_D3D11VA <> AV_HWDEVICE_TYPE_DXVA2
  /\ ref_addr sample_child <> ref_addr sample_parent
  /\ hw_create_frames no_parameters alloc_blank no_constraints init_ok derive_copy
       sample_derived_heap None sample_parent 640 480 (AV_PIX_FMT_other 116)
     = Some (Some sample_derived_pool).
Proof.
  split; [reflexivity|]. split; [reflexivity|]. split; [discriminate|].
  split; [discriminate|].
  rewrite (hw_create_frames_layered no_parameters alloc_blank no_constraints init_ok
             derive_copy sample_derived_heap None sample_parent sample_child
             (mk_device AV_HWDEVICE_TYPE_QSV true (Some sample_child)
                        (Some FreeChildContext_free))
             (mk_device AV_HWDEVICE_TYPE_D3D11VA true None None) 640 480
             (AV_PIX_FMT_other 116));
    [reflexivity | reflexivity | reflexivity | reflexivity | reflexivity
     | discriminate | discriminate].
Defined.

Lemma hw_get_format_callback_choice_witness :
  hw_get_format_callback no_parameters alloc_blank no_constraints init_ok derive_copy
    sample_heap (sample_ctx (Some sample_device)) [AV_PIX_FMT_NV12; AV_PIX_FMT_VAAPI_VLD]
  = Some (AV_PIX_FMT_VAAPI_VLD, sample_ctx_pinned)
  /\ sw_pix_fmt sample_ctx_pinned = AV_PIX_FMT_NV12
  /\ hw_device_ctx sample_ctx_pinned = Some sample_device.
Proof.
  split; [reflexivity|].
  destruct (hw_get_format_callback_choice no_parameters alloc_blank no_constraints init_ok
              derive_copy sample_heap (sample_ctx (Some sample_device))
              [AV_PIX_FMT_NV12; AV_PIX_FMT_VAAPI_VLD] AV_PIX_FMT_VAAPI_VLD
              sample_ctx_pinned eq_refl)
    as ((Hdev & _) & _ & [[Hfirst _]|(dev & d & cfg & pool & cc & _ & _ & _ & _ & _ & _ & _ & _
                                      & Hsw & _)]).
  - discriminate.
  - split; [exact Hsw | exact Hdev].
Defined.

Lemma hw_find_codec_first_selectable_witness :
  AV_HWDEVICE_TYPE_VAAPI <> AV_HWDEVICE_TYPE_NONE
  /\ exists f,
       hw_find_codec sample_codecs false 27 AV_HWDEVICE_TYPE_VAAPI any_category
         (Some "av1.vaapi") AV_PIX_FMT_NONE
       = Some (List.find
                 (fun c => passes_filters any_category 27 c
                           && hw_capable false c AV_HWDEVICE_TYPE_VAAPI
                           && bool_decide (hw_check_codec c AV_HWDEVICE_TYPE_VAAPI
                                             (Some "av1.vaapi") = Some true))%bool
                 sample_codecs, f).
Proof.
  split; [discriminate|].
  apply (hw_find_codec_first_selectable sample_codecs false 27 AV_HWDEVICE_TYPE_VAAPI
           any_category "av1.vaapi" ltac:(discriminate) AV_PIX_FMT_NONE).
Defined.

Lemma hw_find_codec_pixel_format_witness :
  AV_HWDEVICE_TYPE_VAAPI <> AV_HWDEVICE_TYPE_NONE
  /\ hw_find_codec sample_codecs false 27 AV_HWDEVICE_TYPE_VAAPI any_category
       (Some "av1.vaapi") AV_PIX_FMT_NONE = Some (Some sample_codec, AV_PIX_FMT_VAAPI_VLD)
  /\ In sample_codec sample_codecs
  /\ hw_check_codec sample_codec AV_HWDEVICE_TYPE_VAAPI (Some "av1.vaapi") = Some true
  /\ ((exists cfg, In cfg (hw_configs sample_codec)
                   /\ device_type cfg = AV_HWDEVICE_TYPE_VAAPI
                   /\ pix_fmt cfg = AV_PIX_FMT_VAAPI_VLD)
      \/ (is_encoder sample_codec = true
          /\ AV_PIX_FMT_VAAPI_VLD = native_format false AV_HWDEVICE_TYPE_VAAPI
          /\ AV_PIX_FMT_VAAPI_VLD <> AV_PIX_FMT_NONE
          /\ exists fmts, pix_fmts sample_codec = Some fmts
                          /\ array_mem AV_PIX_FMT_VAAPI_VLD fmts = true)).
Proof.
  split; [discriminate|]. split; [reflexivity|].
  apply (hw_find_codec_pixel_format sample_codecs false 27 AV_HWDEVICE_TYPE_VAAPI
           any_category "av1.vaapi" ltac:(discriminate) AV_PIX_FMT_NONE).
  reflexivity.
Defined.

Lemma hw_find_codec_hw_disables_all_witness :
  AV_HWDEVICE_TYPE_VAAPI <> AV_HWDEVICE_TYPE_NONE
  /\ In "hw" (comma_tokens "av1.vaapi,hw")
  /\ exists f,
       hw_find_codec sample_codecs false 27 AV_HWDEVICE_TYPE_VAAPI any_category
         (Some "av1.vaapi,hw") AV_PIX_FMT_NONE = Some (None, f).
Proof.
  split; [discriminate|]. split; [simpl; auto|].
  apply (hw_find_codec_hw_disables_all sample_codecs false 27 AV_HWDEVICE_TYPE_VAAPI
           any_category "av1.vaapi,hw" ltac:(discriminate) AV_PIX_FMT_NONE).
  simpl; auto.
Defined.

Lemma hw_create_device_then_frames_child_witness :
  hw_create_device Win32 always_created always_derived always_referenced
    AV_HWDEVICE_TYPE_QSV 0 "" false empty_heap
  = Some (Some sample_parent, sample_derived_heap)
  /\ Win32 = Win32
  /\ exists dp,
       deref sample_derived_heap sample_parent = Some dp
       /\ match user_opaque dp with
          | Some child =>
              ref_addr child <> ref_addr sample_parent
              /\ exists dc,
                   deref sample_derived_heap child = Some dc
                   /\ hwctx dc = true
                   /\ ((type dc = AV_HWDEVICE_TYPE_D3D11VA
                        /\ frames_child_ctx sample_derived_heap sample_parent = Some child)
                       \/ (type dc = AV_HWDEVICE_TYPE_DXVA2
                           /\ frames_child_ctx sample_derived_heap sample_parent
                              = Some sample_parent))
          | None => frames_child_ctx sample_derived_heap sample_parent = Some sample_parent
          end
       /\ ((forall r, always_referenced r = true) -> is_Some (user_opaque dp))
       /\ ((forall r, always_referenced r = false) -> user_opaque dp = None).
Proof.
  split; [vm_compute; reflexivity|].
  apply (hw_create_device_then_frames_child always_created always_derived
           always_referenced AV_HWDEVICE_TYPE_QSV 0 "" Win32 false empty_heap
           sample_parent sample_derived_heap); [reflexivity | vm_compute; reflexivity].
Defined.

Lemma override_is_per_preference_and_role_witness :
  (VIDEO_ACCELERATION_VAAPI, false) <> (VIDEO_ACCELERATION_MFX, false)
  /\ getDecoderConfiguration NotWin32 VIDEO_ACCELERATION_MFX
       (Some [("hw_decoders_vaapi", "vaapi.CustomGPU")])
     = decoder_default NotWin32 VIDEO_ACCELERATION_MFX.
Proof.
  split; [discriminate|].
  apply (override_is_per_preference_and_role NotWin32 VIDEO_ACCELERATION_VAAPI
           VIDEO_ACCELERATION_MFX false false "vaapi.CustomGPU"); discriminate.
Defined.

Lemma hw_check_codec_empty_list_witness :
  AV_HWDEVICE_TYPE_VAAPI <> AV_HWDEVICE_TYPE_NONE
  /\ hw_check_codec sample_codec AV_HWDEVICE_TYPE_VAAPI (Some "") = Some true.
Proof.
  split; [discriminate|].
  apply (hw_check_codec_empty_list sample_codec AV_HWDEVICE_TYPE_VAAPI). discriminate.
Defined.
